(** * The Textract-to-Comprehend-Medical bridge handler

    A shallow embedding of [lambda/textract_comprehend_medical/app/main.py]:
    the Lambda [handler] that loads a Textract result from S3, joins the
    text of its pages, stores the text under a fresh job name and starts an
    ICD-10-CM inference job on it.

    The handler is effectful.  Everything it obtains from outside (the URL
    parser, the S3 client, the JSON decoder, the Textract response parser,
    the random UUID, the process environment, the Comprehend Medical
    client) is a field of a [World]; the handler itself is a computation
    that returns a result or raises, and records the calls it makes.

    The module-level set-up of the source (the logger and the S3 client,
    built once when the module is loaded) happens before any invocation
    and is not part of the handler. *)

From Stdlib Require Import Strings.String Strings.Byte.
From Stdlib Require Import Floats.SpecFloat.
From Stdlib Require Import List NArith ZArith Bool Lia.
Import ListNotations.

Set Implicit Arguments.
Set Warnings "-register-all".

(** ** Python data *)

(** A Python [str] is a sequence of Unicode code points; [bytes] is a
    sequence of bytes. *)
Definition codepoint := N.
Definition pystr := list codepoint.
Definition pybytes := list byte.

(** An ASCII literal of the source, as a [str]. *)
Definition lit (s : string) : pystr :=
  map (fun b => Byte.to_N b) (list_byte_of_string s).

Fixpoint str_eqb (a b : pystr) : bool :=
  match a, b with
  | [], [] => true
  | x :: a', y :: b' => (x =? y)%N && str_eqb a' b'
  | _, _ => false
  end.

(** The values a decoded JSON event is made of.  A [dict] keeps its items
    in insertion order; its keys are strings, and a lookup finds the item
    of that key. *)
Inductive pyval : Type :=
| PNone
| PBool (b : bool)
| PInt (z : Z)
| PFloat (f : spec_float)
| PStr (s : pystr)
| PList (l : list pyval)
| PDict (d : list (pystr * pyval)).

Fixpoint dict_lookup (k : pystr) (d : list (pystr * pyval)) : option pyval :=
  match d with
  | [] => None
  | (k', v) :: d' => if str_eqb k k' then Some v else dict_lookup k d'
  end.

(** [bool(v)]: the truth value of [v] in an [if]. *)
Definition truthy (v : pyval) : bool :=
  match v with
  | PNone => false
  | PBool b => b
  | PInt z => negb (z =? 0)%Z
  | PFloat (S754_zero _) => false
  | PFloat _ => true
  | PStr [] => false
  | PStr _ => true
  | PList [] => false
  | PList _ => true
  | PDict [] => false
  | PDict _ => true
  end.

(** ** Exceptions and results *)

(** The instances of [Exception] the handler can meet: the ones the
    interpreter raises on the handler's own expressions, and the ones a
    library call raises, kept by class name and message. *)
Inductive exn : Type :=
| RuntimeError (msg : pystr)
| KeyError (key : pystr)
| TypeError
| AttributeError
| UnicodeEncodeError
| LibraryError (cls : string) (msg : pystr).

Inductive result (A : Type) : Type :=
| Ok (a : A)
| Raise (e : exn).
Arguments Ok {A} a.
Arguments Raise {A} e.

(** [v.get(k)]: only a [dict] has the method. *)
Definition py_get (v : pyval) (k : pystr) : result pyval :=
  match v with
  | PDict d => Ok (match dict_lookup k d with Some x => x | None => PNone end)
  | _ => Raise AttributeError
  end.

(** [v[k]] for a string [k]: a [dict] looks the key up, a sequence wants
    an integer index, anything else is not subscriptable. *)
Definition py_getitem (v : pyval) (k : pystr) : result pyval :=
  match v with
  | PDict d => match dict_lookup k d with
               | Some x => Ok x
               | None => Raise (KeyError k)
               end
  | _ => Raise TypeError
  end.

(** ** Text, URLs and UTF-8 *)

(** [urlparse] answers in [str] for a [str] argument and in [bytes]
    otherwise. *)
Inductive AnyStr : Type :=
| Str (s : pystr)
| Bytes (b : pybytes).

(** The two attributes of a parse result the handler reads. *)
Record ParseResult : Type := mkParseResult {
  hostname : option AnyStr;
  path : AnyStr
}.

(** [t[1:]] *)
Definition slice_from_1 (t : AnyStr) : AnyStr :=
  match t with
  | Str s => Str (tl s)
  | Bytes b => Bytes (tl b)
  end.

(** The UTF-8 code units of one code point, as numbers.  A surrogate has
    no encoding, and nothing past [0x10FFFF] is a code point. *)
Definition utf8_units (c : codepoint) : option (list N) :=
  if (c <? 128)%N then
    Some [c]
  else if (c <? 2048)%N then
    Some [N.lor 192 (N.shiftr c 6);
          N.lor 128 (N.land c 63)]
  else if (55296 <=? c)%N && (c <=? 57343)%N then
    None
  else if (c <? 65536)%N then
    Some [N.lor 224 (N.shiftr c 12);
          N.lor 128 (N.land (N.shiftr c 6) 63);
          N.lor 128 (N.land c 63)]
  else if (c <? 1114112)%N then
    Some [N.lor 240 (N.shiftr c 18);
          N.lor 128 (N.land (N.shiftr c 12) 63);
          N.lor 128 (N.land (N.shiftr c 6) 63);
          N.lor 128 (N.land c 63)]
  else
    None.

(** The byte of a code unit; every unit is below 256 ([utf8_units_range]). *)
Definition byte_of_N (n : N) : byte :=
  match Byte.of_N n with
  | Some b => b
  | None => "000"%byte
  end.

Definition utf8_encode_char (c : codepoint) : option pybytes :=
  option_map (map byte_of_N) (utf8_units c).

(** [str.encode(s)]: UTF-8, [UnicodeEncodeError] on the first code point
    that cannot be encoded. *)
Fixpoint str_encode (s : pystr) : result pybytes :=
  match s with
  | [] => Ok []
  | c :: s' =>
      match utf8_encode_char c with
      | None => Raise UnicodeEncodeError
      | Some bs =>
          match str_encode s' with
          | Ok rest => Ok (bs ++ rest)
          | Raise e => Raise e
          end
      end
  end.

(** ** UUIDs *)

(** A UUID is its 128-bit integer.  [str(u)] prints the integer as 32
    lower-case hexadecimal digits, grouped 8-4-4-4-12. *)
Definition UUID := N.

Definition hex_digit (d : N) : codepoint :=
  if (d <? 10)%N then (48 + d)%N else (87 + d)%N.

(** The [n] low hexadecimal digits of [v], least significant first. *)
Fixpoint hex_le (n : nat) (v : N) : pystr :=
  match n with
  | O => []
  | S n' => hex_digit (v mod 16) :: hex_le n' (v / 16)
  end.

(** ['%032x' % v], for [v] below [2^128]. *)
Definition hex32 (v : N) : pystr := rev (hex_le 32 v).

(** [s[a:b]] *)
Definition slice (a b : nat) (s : pystr) : pystr := firstn (b - a) (skipn a s).

Definition dash : pystr := lit "-".

Definition uuid_str (u : UUID) : pystr :=
  let hex := hex32 u in
  slice 0 8 hex ++ dash ++ slice 8 12 hex ++ dash ++ slice 12 16 hex ++ dash
    ++ slice 16 20 hex ++ dash ++ skipn 20 hex.

(** ** The world outside the handler *)

(** What [client.get_object] returns: the handler only reads the body,
    and the read can fail. *)
Record GetObjectOutput : Type := mkGetObjectOutput {
  Body_read : result pybytes
}.

(** What [trp.Document] exposes: pages in document order, each with its
    text. *)
Record Page : Type := mkPage {
  text : pystr
}.

Record Document : Type := mkDocument {
  pages : list Page
}.

Record S3Location : Type := mkS3Location {
  S3Bucket : option AnyStr;
  S3Key : pystr
}.

(** The keyword arguments of [start_icd10_cm_inference_job]. *)
Record JobParams : Type := mkJobParams {
  InputDataConfig : S3Location;
  OutputDataConfig : S3Location;
  JobName : pystr;
  DataAccessRoleArn : option pystr;
  LanguageCode : pystr
}.

(** One invocation's view of its surroundings.  Every field is what the
    named call answers during this invocation. *)
Record World : Type := mkWorld {
  urlparse : pyval -> result ParseResult;
  s3_get_object : option AnyStr -> AnyStr -> result GetObjectOutput;
  json_loads : pybytes -> result pyval;
  trp_Document : pyval -> result Document;
  uuid4 : UUID;
  s3_put_object : option AnyStr -> pystr -> pybytes -> result pyval;
  boto3_client : pystr -> result unit;
  start_icd10_cm_inference_job : JobParams -> result pyval;
  os_getenv : pystr -> option pystr
}.

(** ** Effects *)

Inductive level : Type := DEBUG | INFO.

(** The four log lines of the handler, by what they carry. *)
Inductive logmsg : Type :=
| MsgEvent (event : pyval)
| MsgBucket (bucket : option AnyStr)
| MsgKey (object_key : AnyStr)
| MsgPageCount (n : nat).

(** What an invocation does that can be seen from outside, in order.  A
    call is recorded when it is made, whether it then succeeds or not. *)
Inductive effect : Type :=
| Log (lvl : level) (m : logmsg)
| GetObject (Bucket : option AnyStr) (Key : AnyStr)
| PutObject (Bucket : option AnyStr) (Key : pystr) (Body : pybytes)
| StartJob (p : JobParams)
| PrintExc (e : exn).

(** A computation: its result or the exception it raised, and the effects
    it had on the way. *)
Definition M (A : Type) : Type := (result A * list effect)%type.

Definition ret {A} (a : A) : M A := (Ok a, []).

Definition raise {A} (e : exn) : M A := (Raise e, []).

Definition bind {A B} (m : M A) (k : A -> M B) : M B :=
  match m with
  | (Ok a, t) => let (r, t') := k a in (r, t ++ t')
  | (Raise e, t) => (Raise e, t)
  end.

(** A pure expression that may raise. *)
Definition lift {A} (r : result A) : M A := (r, []).

(** A call to the outside: the effect and the answer. *)
Definition call {A} (c : effect) (r : result A) : M A := (r, [c]).

Definition logger (lvl : level) (m : logmsg) : M unit := (Ok tt, [Log lvl m]).

Definition print_exc (e : exn) : M unit := (Ok tt, [PrintExc e]).

(** [try: m  except Exception as e: h e] *)
Definition try_except {A} (m : M A) (h : exn -> M A) : M A :=
  match m with
  | (Ok a, t) => (Ok a, t)
  | (Raise e, t) => let (r, t') := h e in (r, t ++ t')
  end.

Declare Scope py_scope.
Delimit Scope py_scope with py.
Notation "x <- m ;; k" := (bind m (fun x => k))
  (at level 61, m at next level, right associativity) : py_scope.
Notation "m ;; k" := (bind m (fun _ => k))
  (at level 61, right associativity) : py_scope.
Open Scope py_scope.

(** ** The handler *)

(** [for page in document.pages: text_content += page.text] *)
Definition join_pages (ps : list Page) (text_content : pystr) : pystr :=
  fold_left (fun acc page => acc ++ text page) ps text_content.

Definition handler (w : World) (event context : pyval) : M unit :=
  logger DEBUG (MsgEvent event) ;;
  try_except
    (t <- lift (py_get event (lit "textract_result")) ;;
     if truthy t then
       textract_result <- lift (py_getitem event (lit "textract_result")) ;;
       output_json <-
         lift (py_getitem textract_result (lit "TextractOutputJsonPath")) ;;
       u <- lift (urlparse w output_json) ;;
       let bucket := hostname u in
       u' <- lift (urlparse w output_json) ;;
       let object_key := slice_from_1 (path u') in
       logger DEBUG (MsgBucket bucket) ;;
       logger DEBUG (MsgKey object_key) ;;
       resp <- call (GetObject bucket object_key)
                    (s3_get_object w bucket object_key) ;;
       raw <- lift (Body_read resp) ;;
       blocks <- lift (json_loads w raw) ;;
       document <- lift (trp_Document w blocks) ;;
       logger INFO (MsgPageCount (length (pages document))) ;;
       let text_content := lit "" in
       let job_name := lit "job-" ++ uuid_str (uuid4 w) in
       let text_content := join_pages (pages document) text_content in
       body <- lift (str_encode text_content) ;;
       let key := job_name ++ lit "/result.txt" in
       call (PutObject bucket key body) (s3_put_object w bucket key body) ;;
       lift (boto3_client w (lit "comprehendmedical")) ;;
       let params :=
         {| InputDataConfig := {| S3Bucket := bucket; S3Key := job_name |};
            OutputDataConfig :=
              {| S3Bucket := bucket; S3Key := lit "cm-output/" ++ job_name |};
            JobName := job_name;
            DataAccessRoleArn := os_getenv w (lit "COMPREHEND_MEDICAL_ROLE");
            LanguageCode := lit "en" |} in
       call (StartJob params) (start_icd10_cm_inference_job w params) ;;
       ret tt
     else
       raise (RuntimeError (lit "Invalid lambda event.")))
    (fun e => print_exc e ;; raise e).

(** ** Reading an invocation *)

Definition outcome {A} (m : M A) : result A := fst m.
Definition effects {A} (m : M A) : list effect := snd m.

Definition is_storage_call (c : effect) : bool :=
  match c with
  | GetObject _ _ | PutObject _ _ _ => true
  | _ => false
  end.

Definition is_service_call (c : effect) : bool :=
  match c with
  | StartJob _ => true
  | _ => false
  end.

Definition is_put (c : effect) : bool :=
  match c with
  | PutObject _ _ _ => true
  | _ => false
  end.

Definition storage_calls (t : list effect) : list effect :=
  filter is_storage_call t.

Definition service_calls (t : list effect) : list effect :=
  filter is_service_call t.

Definition storage_writes (t : list effect) : list effect :=
  filter is_put t.

(** The handler's local [job_name], and the key it stores the text under. *)
Definition job_name (w : World) : pystr := lit "job-" ++ uuid_str (uuid4 w).

Definition result_key (w : World) : pystr := job_name w ++ lit "/result.txt".

Definition invalid_event : exn := RuntimeError (lit "Invalid lambda event.").

(** [k in v] for a [dict]; the other values of an event hold no key. *)
Definition has_key (v : pyval) (k : pystr) : bool :=
  match v with
  | PDict d => match dict_lookup k d with Some _ => true | None => false end
  | _ => false
  end.

Definition is_dict (v : pyval) : bool :=
  match v with
  | PDict _ => true
  | _ => false
  end.

(** The invocation gets as far as holding the parsed document: the event
    names a location, the location parses to [bucket] and [object_key],
    the object is fetched, read, decoded and parsed into [doc]. *)
Inductive Loads (w : World) (event : pyval)
  (bucket : option AnyStr) (object_key : AnyStr) (doc : Document) : Prop :=
| Loads_intro (d : list (pystr * pyval)) (textract_result output_json : pyval)
    (u : ParseResult) (resp : GetObjectOutput) (raw : pybytes)
    (blocks : pyval) :
    event = PDict d ->
    dict_lookup (lit "textract_result") d = Some textract_result ->
    truthy textract_result = true ->
    py_getitem textract_result (lit "TextractOutputJsonPath") = Ok output_json ->
    urlparse w output_json = Ok u ->
    bucket = hostname u ->
    object_key = slice_from_1 (path u) ->
    s3_get_object w bucket object_key = Ok resp ->
    Body_read resp = Ok raw ->
    json_loads w raw = Ok blocks ->
    trp_Document w blocks = Ok doc ->
    Loads w event bucket object_key doc.

(** The parameters the handler submits for [bucket] in world [w]. *)
Definition job_params (w : World) (bucket : option AnyStr) : JobParams :=
  {| InputDataConfig := {| S3Bucket := bucket; S3Key := job_name w |};
     OutputDataConfig :=
       {| S3Bucket := bucket; S3Key := lit "cm-output/" ++ job_name w |};
     JobName := job_name w;
     DataAccessRoleArn := os_getenv w (lit "COMPREHEND_MEDICAL_ROLE");
     LanguageCode := lit "en" |}.

(** The effects before the text is encoded, once the document is loaded. *)
Definition load_effects (event : pyval) (bucket : option AnyStr)
  (object_key : AnyStr) (doc : Document) : list effect :=
  [Log DEBUG (MsgEvent event);
   Log DEBUG (MsgBucket bucket);
   Log DEBUG (MsgKey object_key);
   GetObject bucket object_key;
   Log INFO (MsgPageCount (length (pages doc)))].

(** ** A concrete world *)

(** The examples run the handler in a world with one stored object,
    [s3://bucket1/path/to/result.json], whose document has the two pages
    ["Hello "] and ["World"]. *)

Fixpoint break_at (c : codepoint) (s : pystr) : pystr * pystr :=
  match s with
  | [] => ([], [])
  | x :: s' =>
      if (x =? c)%N then ([], s)
      else let (a, b) := break_at c s' in (x :: a, b)
  end.

(** URLs of the shape [scheme://host/path], which is all the examples
    need of [urllib.parse.urlparse]. *)
Definition demo_urlparse (v : pyval) : result ParseResult :=
  match v with
  | PStr s =>
      let rest := snd (break_at 58%N s) in
      if str_eqb (firstn 3 rest) (lit "://") then
        let (host, p) := break_at 47%N (skipn 3 rest) in
        Ok {| hostname := match host with [] => None | _ => Some (Str host) end;
              path := Str p |}
      else
        Ok {| hostname := None; path := Str s |}
  | _ => Raise AttributeError
  end.

Definition anystr_is (t : AnyStr) (s : pystr) : bool :=
  match t with
  | Str s' => str_eqb s' s
  | Bytes _ => false
  end.

Definition demo_raw : pybytes := list_byte_of_string "{}".

Definition demo_blocks : pyval := PDict [].

Definition demo_doc : Document :=
  {| pages := [ {| text := lit "Hello " |}; {| text := lit "World" |} ] |}.

Definition demo_get_object (bucket : option AnyStr) (key : AnyStr)
  : result GetObjectOutput :=
  match bucket with
  | Some b =>
      if anystr_is b (lit "bucket1") && anystr_is key (lit "path/to/result.json")
      then Ok {| Body_read := Ok demo_raw |}
      else Raise (LibraryError "NoSuchKey" (lit "The specified key does not exist."))
  | None => Raise (LibraryError "ParamValidationError" (lit "Bucket"))
  end.

(** A client that insists on a role, as the service does. *)
Definition demo_start_job (p : JobParams) : result pyval :=
  match DataAccessRoleArn p with
  | Some _ => Ok (PDict [(lit "JobId", PStr (JobName p))])
  | None => Raise (LibraryError "ParamValidationError" (lit "DataAccessRoleArn"))
  end.

Definition demo_world (u : UUID) (role : option pystr)
  (put_answer : result pyval) : World :=
  {| urlparse := demo_urlparse;
     s3_get_object := demo_get_object;
     json_loads := fun _ => Ok demo_blocks;
     trp_Document := fun _ => Ok demo_doc;
     uuid4 := u;
     s3_put_object := fun _ _ _ => put_answer;
     boto3_client := fun _ => Ok tt;
     start_icd10_cm_inference_job := demo_start_job;
     os_getenv := fun k =>
       if str_eqb k (lit "COMPREHEND_MEDICAL_ROLE") then role else None |}.

Definition demo_event : pyval :=
  PDict [(lit "textract_result",
          PDict [(lit "TextractOutputJsonPath",
                  PStr (lit "s3://bucket1/path/to/result.json"))])].

Definition demo_role : pystr := lit "arn:aws:iam::123456789012:role/cm".

Definition demo_uuid : UUID := 0x123e4567e89b42d3a456426614174000%N.

Definition access_denied : exn := LibraryError "ClientError" (lit "AccessDenied").

(** ** Stages of an invocation *)

(** The event names a location and the location parses: the handler has
    its [bucket] and [object_key] and is about to read from storage. *)
Inductive Resolves (w : World) (event : pyval)
  (bucket : option AnyStr) (object_key : AnyStr) : Prop :=
| Resolves_intro (d : list (pystr * pyval)) (textract_result output_json : pyval)
    (u : ParseResult) :
    event = PDict d ->
    dict_lookup (lit "textract_result") d = Some textract_result ->
    truthy textract_result = true ->
    py_getitem textract_result (lit "TextractOutputJsonPath") = Ok output_json ->
    urlparse w output_json = Ok u ->
    bucket = hostname u ->
    object_key = slice_from_1 (path u) ->
    Resolves w event bucket object_key.

(** [trp.Document(json.loads(client.get_object(...)['Body'].read()))]: the
    four steps from the storage read to the parsed document, stopping at
    the first that raises. *)
Definition fetch (w : World) (bucket : option AnyStr) (object_key : AnyStr)
  : result Document :=
  match s3_get_object w bucket object_key with
  | Raise e => Raise e
  | Ok resp =>
      match Body_read resp with
      | Raise e => Raise e
      | Ok raw =>
          match json_loads w raw with
          | Raise e => Raise e
          | Ok blocks => trp_Document w blocks
          end
      end
  end.

(** The effects up to and including the storage read. *)
Definition read_effects (event : pyval) (bucket : option AnyStr)
  (object_key : AnyStr) : list effect :=
  [Log DEBUG (MsgEvent event);
   Log DEBUG (MsgBucket bucket);
   Log DEBUG (MsgKey object_key);
   GetObject bucket object_key].

Definition is_print_exc (c : effect) : bool :=
  match c with
  | PrintExc _ => true
  | _ => false
  end.

Definition printed (t : list effect) : list effect := filter is_print_exc t.

(** The calls to storage and to the inference service, in order. *)
Definition remote_calls (t : list effect) : list effect :=
  filter (fun c => is_storage_call c || is_service_call c) t.

(** A lower-case hexadecimal digit or a dash. *)
Definition is_hex_or_dash (c : codepoint) : bool :=
  ((48 <=? c)%N && (c <=? 57)%N) || ((97 <=? c)%N && (c <=? 102)%N)
  || (c =? 45)%N.

(** A world of fixed answers, for the runs that stop on the way. *)
Definition stub_world (parse : result ParseResult) (doc : result Document)
  (client : result unit) : World :=
  {| urlparse := fun _ => parse;
     s3_get_object := fun _ _ => Ok {| Body_read := Ok demo_raw |};
     json_loads := fun _ => Ok demo_blocks;
     trp_Document := fun _ => doc;
     uuid4 := demo_uuid;
     s3_put_object := fun _ _ _ => Ok PNone;
     boto3_client := fun _ => client;
     start_icd10_cm_inference_job := demo_start_job;
     os_getenv := fun _ => Some demo_role |}.

Definition demo_parse : ParseResult :=
  {| hostname := Some (Str (lit "bucket1"));
     path := Str (lit "/path/to/result.json") |}.

Definition missing_event : pyval :=
  PDict [(lit "textract_result",
          PDict [(lit "TextractOutputJsonPath",
                  PStr (lit "s3://bucket1/missing.json"))])].

Definition no_such_key : exn :=
  LibraryError "NoSuchKey" (lit "The specified key does not exist.").

Definition invalid_url : exn := LibraryError "ValueError" (lit "Invalid IPv6 URL").

Definition no_region : exn :=
  LibraryError "NoRegionError" (lit "You must specify a region.").

(** A document whose second page holds a lone surrogate. *)
Definition surrogate_doc : Document :=
  {| pages := [ {| text := lit "Hello " |}; {| text := [55357%N] |} ] |}.

(** * Properties *)

(** Unfolds the monad, leaving the handler as a tree of case analyses. *)
Ltac unfold_handler :=
  unfold handler, try_except, bind, lift, call, logger, print_exc, ret, raise,
    outcome, effects.

(** Runs the handler along the answers recorded in the context. *)
Ltac run_handler :=
  unfold_handler; cbn [py_get py_getitem];
  repeat (match goal with H : _ = _ |- _ => rewrite H end; cbn [fst snd app]).

(** Finds which of the listed effects the hypothesis [H : In c [...]] means. *)
Ltac pick_effect H :=
  cbn in H; repeat destruct H as [H|H]; try discriminate; try contradiction.

(** ** Strings and encoding *)

Lemma str_eqb_refl (s : pystr) : str_eqb s s = true.
Proof.
  induction s as [|c s IH]; simpl; [reflexivity|].
  now rewrite N.eqb_refl, IH.
Qed.

Lemma str_eqb_eq (a b : pystr) : str_eqb a b = true <-> a = b.
Proof.
  split; [|intros ->; apply str_eqb_refl].
  revert b; induction a as [|x a IH]; intros [|y b]; simpl; try discriminate.
  - reflexivity.
  - intros H. apply andb_true_iff in H as [Hxy Hab].
    apply N.eqb_eq in Hxy. apply IH in Hab. congruence.
Qed.

(** A key that was just put in front of a dictionary is found. *)
Lemma dict_lookup_head (k : pystr) (v : pyval) (d : list (pystr * pyval)) :
  dict_lookup k ((k, v) :: d) = Some v.
Proof. simpl. now rewrite str_eqb_refl. Qed.

(** The loop over the pages appends their texts, in order, to what was
    there before. *)
Lemma join_pages_concat (ps : list Page) (acc : pystr) :
  join_pages ps acc = acc ++ concat (map text ps).
Proof.
  unfold join_pages. revert acc.
  induction ps as [|p ps IH]; intros acc; simpl.
  - now rewrite app_nil_r.
  - now rewrite IH, app_assoc.
Qed.

Lemma str_encode_app (a b : pystr) (x y : pybytes) :
  str_encode a = Ok x -> str_encode b = Ok y -> str_encode (a ++ b) = Ok (x ++ y).
Proof.
  revert x. induction a as [|c a IH]; intros x Ha Hb; simpl in *.
  - injection Ha as <-. exact Hb.
  - destruct (utf8_encode_char c) as [bs|]; [|discriminate].
    destruct (str_encode a) as [rest|e]; [|discriminate].
    injection Ha as <-. rewrite (IH rest eq_refl Hb). now rewrite app_assoc.
Qed.

(** The text of several pages encodes to the encodings of the pages, one
    after the other. *)
Lemma str_encode_concat (texts : list pystr) (encodings : list pybytes) :
  Forall2 (fun t b => str_encode t = Ok b) texts encodings ->
  str_encode (concat texts) = Ok (concat encodings).
Proof.
  induction 1 as [|t b texts encodings Ht _ IH]; simpl; [reflexivity|].
  now apply str_encode_app.
Qed.

Lemma lor_below (n a b : N) :
  (a < 2 ^ n)%N -> (b < 2 ^ n)%N -> (N.lor a b < 2 ^ n)%N.
Proof.
  intros Ha Hb.
  destruct (N.eq_dec (N.lor a b) 0) as [E|E].
  - rewrite E. apply N.le_lt_trans with a; [apply N.le_0_l|exact Ha].
  - assert (Hn : (0 < n)%N).
    { destruct (N.eq_dec n 0) as [->|]; [|lia].
      exfalso. apply E. change (2 ^ 0)%N with 1%N in Ha, Hb.
      assert (a = 0%N) by lia. assert (b = 0%N) by lia. now subst. }
    apply N.log2_lt_pow2; [lia|]. rewrite N.log2_lor.
    apply N.max_lub_lt.
    + destruct (N.eq_dec a 0) as [->|]; [exact Hn|].
      apply N.log2_lt_pow2; [lia|exact Ha].
    + destruct (N.eq_dec b 0) as [->|]; [exact Hn|].
      apply N.log2_lt_pow2; [lia|exact Hb].
Qed.

Lemma continuation_unit_range (x : N) : (N.lor 128 (N.land x 63) < 256)%N.
Proof.
  apply (@lor_below 8); [reflexivity|].
  change 63%N with (N.ones 6). rewrite N.land_ones.
  apply N.lt_trans with (2 ^ 6)%N; [apply N.mod_lt; discriminate|reflexivity].
Qed.

Lemma leading_unit_range (tag c k bound : N) :
  (tag < 256)%N -> (c < bound)%N -> (bound <= 2 ^ k * 256)%N ->
  (N.lor tag (N.shiftr c k) < 256)%N.
Proof.
  intros Htag Hc Hbound. apply (@lor_below 8); [exact Htag|].
  rewrite N.shiftr_div_pow2. apply N.Div0.div_lt_upper_bound.
  change (2 ^ 8)%N with 256%N. lia.
Qed.

(** Every code unit of an encoding fits a byte. *)
Lemma utf8_units_range (c : codepoint) (us : list N) :
  utf8_units c = Some us -> Forall (fun u => (u < 256)%N) us.
Proof.
  intros E.
  assert (H : match utf8_units c with
              | Some us' => Forall (fun u => (u < 256)%N) us'
              | None => True
              end); [clear E | now rewrite E in H].
  unfold utf8_units.
  destruct (N.ltb_spec c 128) as [H1|H1].
  { apply Forall_cons; [lia|apply Forall_nil]. }
  destruct (N.ltb_spec c 2048) as [H2|H2].
  { repeat (apply Forall_cons || apply Forall_nil);
      try apply continuation_unit_range.
    now apply leading_unit_range with (bound := 2048%N). }
  destruct ((55296 <=? c)%N && (c <=? 57343)%N); [exact I|].
  destruct (N.ltb_spec c 65536) as [H3|H3].
  { repeat (apply Forall_cons || apply Forall_nil);
      try apply continuation_unit_range.
    now apply leading_unit_range with (bound := 65536%N). }
  destruct (N.ltb_spec c 1114112) as [H4|H4]; [|exact I].
  repeat (apply Forall_cons || apply Forall_nil);
    try apply continuation_unit_range.
  now apply leading_unit_range with (bound := 1114112%N).
Qed.

(** So no byte of an encoding is the filler of [byte_of_N]: the byte is
    the unit. *)
Lemma byte_of_N_exact (n : N) : (n < 256)%N -> Byte.to_N (byte_of_N n) = n.
Proof.
  intros Hn. unfold byte_of_N.
  destruct (Byte.of_N n) as [b|] eqn:E.
  - now apply Byte.to_of_N.
  - apply Byte.of_N_None_iff in E. lia.
Qed.

(** An ASCII text is its own encoding. *)
Lemma str_encode_ascii (bs : pybytes) :
  Forall (fun b => (Byte.to_N b < 128)%N) bs ->
  str_encode (map Byte.to_N bs) = Ok bs.
Proof.
  induction 1 as [|b bs Hb _ IH]; simpl; [reflexivity|].
  unfold utf8_encode_char, utf8_units. apply N.ltb_lt in Hb. rewrite Hb, IH.
  cbn [option_map map app]. unfold byte_of_N. now rewrite Byte.of_to_N.
Qed.

Example utf8_two_bytes : str_encode [233%N] = Ok ["195"%byte; "169"%byte].
Proof. reflexivity. Qed.

Example utf8_three_bytes :
  str_encode [8364%N] = Ok ["226"%byte; "130"%byte; "172"%byte].
Proof. reflexivity. Qed.

Example utf8_four_bytes :
  str_encode [128512%N]
  = Ok ["240"%byte; "159"%byte; "152"%byte; "128"%byte].
Proof. reflexivity. Qed.

Example utf8_surrogate : str_encode [72%N; 55296%N] = Raise UnicodeEncodeError.
Proof. reflexivity. Qed.

(** ** Printing a UUID loses nothing *)

Example uuid_str_demo :
  uuid_str demo_uuid = lit "123e4567-e89b-42d3-a456-426614174000".
Proof. reflexivity. Qed.

Lemma hex_digit_inj (d1 d2 : N) :
  (d1 < 16)%N -> (d2 < 16)%N -> hex_digit d1 = hex_digit d2 -> d1 = d2.
Proof.
  unfold hex_digit. intros H1 H2.
  destruct (N.ltb_spec d1 10), (N.ltb_spec d2 10); lia.
Qed.

Lemma hex_le_length (n : nat) (v : N) : length (hex_le n v) = n.
Proof.
  revert v. induction n as [|n IH]; intros v; simpl; [reflexivity|].
  now rewrite IH.
Qed.

(** The [n] digits determine the value modulo [16^n]. *)
Lemma hex_le_inj (n : nat) (v1 v2 : N) :
  hex_le n v1 = hex_le n v2 ->
  (v1 mod 16 ^ N.of_nat n = v2 mod 16 ^ N.of_nat n)%N.
Proof.
  revert v1 v2. induction n as [|n IH]; intros v1 v2 H.
  - simpl. now rewrite !N.mod_1_r.
  - simpl in H. injection H as Hd Hrest.
    apply hex_digit_inj in Hd; try (apply N.mod_lt; discriminate).
    apply IH in Hrest.
    rewrite Nat2N.inj_succ, N.pow_succ_r'.
    rewrite !N.Div0.mod_mul_r. now rewrite Hd, Hrest.
Qed.

Lemma hex32_inj (v1 v2 : N) :
  (v1 < 2 ^ 128)%N -> (v2 < 2 ^ 128)%N -> hex32 v1 = hex32 v2 -> v1 = v2.
Proof.
  intros H1 H2 H. unfold hex32 in H. apply rev_inj in H.
  apply hex_le_inj in H.
  change (16 ^ N.of_nat 32)%N with (2 ^ 128)%N in H.
  now rewrite !N.mod_small in H.
Qed.

Lemma hex32_length (v : N) : length (hex32 v) = 32.
Proof. unfold hex32. now rewrite length_rev, hex_le_length. Qed.

Lemma app_inj_length {A} (a a' b b' : list A) :
  length a = length a' -> a ++ b = a' ++ b' -> a = a' /\ b = b'.
Proof.
  revert a'. induction a as [|x a IH]; intros [|x' a'] Hlen Heq;
    simpl in *; try discriminate.
  - now split.
  - injection Heq as -> Heq. injection Hlen as Hlen.
    destruct (IH a' Hlen Heq) as [-> ->]. now split.
Qed.

(** The five groups of [uuid_str] are the whole digit string. *)
Lemma slices_cover (h : pystr) :
  slice 0 8 h ++ slice 8 12 h ++ slice 12 16 h ++ slice 16 20 h ++ skipn 20 h
  = h.
Proof.
  unfold slice. cbn [Nat.sub]. change (skipn 0 h) with h.
  change (skipn 20 h) with (skipn (4 + 16) h).
  rewrite <- (skipn_skipn 4 16 h), firstn_skipn.
  change (skipn 16 h) with (skipn (4 + 12) h).
  rewrite <- (skipn_skipn 4 12 h), firstn_skipn.
  change (skipn 12 h) with (skipn (4 + 8) h).
  rewrite <- (skipn_skipn 4 8 h), firstn_skipn.
  apply firstn_skipn.
Qed.

Lemma slice_length (a b : nat) (h : pystr) :
  b <= length h -> length (slice a b h) = b - a.
Proof.
  intros Hb. unfold slice. rewrite length_firstn, length_skipn. lia.
Qed.

Lemma uuid_str_inj (u1 u2 : UUID) :
  (u1 < 2 ^ 128)%N -> (u2 < 2 ^ 128)%N -> uuid_str u1 = uuid_str u2 -> u1 = u2.
Proof.
  intros H1 H2 H. apply hex32_inj; try assumption.
  unfold uuid_str in H. cbv zeta in H.
  pose proof (hex32_length u1) as L1. pose proof (hex32_length u2) as L2.
  rewrite <- (slices_cover (hex32 u1)), <- (slices_cover (hex32 u2)).
  apply app_inj_length in H as [E1 H];
    [|rewrite !slice_length by lia; reflexivity].
  apply app_inv_head in H.
  apply app_inj_length in H as [E2 H];
    [|rewrite !slice_length by lia; reflexivity].
  apply app_inv_head in H.
  apply app_inj_length in H as [E3 H];
    [|rewrite !slice_length by lia; reflexivity].
  apply app_inv_head in H.
  apply app_inj_length in H as [E4 H];
    [|rewrite !slice_length by lia; reflexivity].
  apply app_inv_head in H.
  now rewrite E1, E2, E3, E4, H.
Qed.

Lemma job_name_inj (w1 w2 : World) :
  (uuid4 w1 < 2 ^ 128)%N -> (uuid4 w2 < 2 ^ 128)%N ->
  job_name w1 = job_name w2 -> uuid4 w1 = uuid4 w2.
Proof.
  intros H1 H2 H. unfold job_name in H. apply app_inv_head in H.
  now apply uuid_str_inj.
Qed.

Lemma result_key_inj (w1 w2 : World) :
  result_key w1 = result_key w2 -> job_name w1 = job_name w2.
Proof. unfold result_key. apply app_inv_tail. Qed.

(** ** Lists of effects *)

Lemma no_service_call_in (t : list effect) (p : JobParams) :
  service_calls t = [] -> ~ In (StartJob p) t.
Proof.
  intros Hnone Hin.
  assert (Hf : In (StartJob p) (service_calls t))
    by (apply filter_In; split; [exact Hin | reflexivity]).
  rewrite Hnone in Hf. exact Hf.
Qed.

Lemma no_write_in (t : list effect) (b : option AnyStr) (k : pystr)
  (body : pybytes) :
  storage_writes t = [] -> ~ In (PutObject b k body) t.
Proof.
  intros Hnone Hin.
  assert (Hf : In (PutObject b k body) (storage_writes t))
    by (apply filter_In; split; [exact Hin | reflexivity]).
  rewrite Hnone in Hf. exact Hf.
Qed.

(** A submission that occurs once in a list of effects splits the list in
    one way only. *)
Lemma split_at_submission (pre post t1 t2 : list effect) (p q : JobParams) :
  service_calls pre = [] ->
  service_calls post = [] ->
  pre ++ StartJob p :: post = t1 ++ StartJob q :: t2 ->
  t1 = pre /\ q = p /\ t2 = post.
Proof.
  intros Hpre Hpost. revert t1.
  induction pre as [|c pre IH]; intros t1 Heq.
  - destruct t1 as [|c1 t1]; simpl in Heq.
    + injection Heq as Hp Ht. now subst.
    + injection Heq as _ Ht. exfalso.
      apply (@no_service_call_in post q Hpost).
      rewrite Ht. apply in_or_app. right. now left.
  - destruct t1 as [|c1 t1]; simpl in Heq.
    + injection Heq as Hc _. subst c. simpl in Hpre. discriminate.
    + injection Heq as Hc Ht. subst c1.
      assert (Hpre' : service_calls pre = []).
      { simpl in Hpre. destruct (is_service_call c); [discriminate|exact Hpre]. }
      destruct (IH Hpre' t1 Ht) as (-> & -> & ->). now repeat split.
Qed.

(** ** One invocation *)

Section Invocation.

Variable w : World.
Variables event context : pyval.

(** The world answers each call in one way, so an invocation loads at
    most one document, from one place. *)
Lemma Loads_deterministic (bucket bucket' : option AnyStr)
  (object_key object_key' : AnyStr) (doc doc' : Document) :
  Loads w event bucket object_key doc ->
  Loads w event bucket' object_key' doc' ->
  bucket = bucket' /\ object_key = object_key' /\ doc = doc'.
Proof.
  intros [d tr out u resp raw blocks E Hd Ht Hout Hu -> -> Hg Hr Hj Hdoc]
         [d' tr' out' u' resp' raw' blocks' E' Hd' Ht' Hout' Hu' -> ->
            Hg' Hr' Hj' Hdoc'].
  rewrite E in E'. injection E' as <-.
  rewrite Hd in Hd'. injection Hd' as <-.
  rewrite Hout in Hout'. injection Hout' as <-.
  rewrite Hu in Hu'. injection Hu' as <-.
  rewrite Hg in Hg'. injection Hg' as <-.
  rewrite Hr in Hr'. injection Hr' as <-.
  rewrite Hj in Hj'. injection Hj' as <-.
  rewrite Hdoc in Hdoc'. injection Hdoc' as <-.
  now repeat split.
Qed.

(** The run of the handler once the document is loaded: what remains is
    to encode the text, write it, make the client and submit the job. *)
Lemma handler_loaded (bucket : option AnyStr) (object_key : AnyStr)
  (doc : Document) :
  Loads w event bucket object_key doc ->
  handler w event context =
  let pre := load_effects event bucket object_key doc in
  match str_encode (concat (map text (pages doc))) with
  | Raise e => (Raise e, pre ++ [PrintExc e])
  | Ok body =>
      let put := PutObject bucket (result_key w) body in
      match s3_put_object w bucket (result_key w) body with
      | Raise e => (Raise e, pre ++ [put; PrintExc e])
      | Ok _ =>
          match boto3_client w (lit "comprehendmedical") with
          | Raise e => (Raise e, pre ++ [put; PrintExc e])
          | Ok _ =>
              let p := job_params w bucket in
              match start_icd10_cm_inference_job w p with
              | Raise e => (Raise e, pre ++ [put; StartJob p; PrintExc e])
              | Ok _ => (Ok tt, pre ++ [put; StartJob p])
              end
          end
      end
  end.
Proof.
  intros [d tr out u resp raw blocks -> Hd Ht Hout Hu -> -> Hget Hread Hjson Hdoc].
  run_handler.
  rewrite join_pages_concat. cbn [app lit map list_byte_of_string].
  fold (job_name w). fold (result_key w).
  change (mkJobParams _ _ _ _ _) with (job_params w (hostname u)).
  unfold load_effects.
  destruct (str_encode _) as [body|e]; cbn; [|reflexivity].
  destruct (s3_put_object _ _ _ _) as [?|e]; cbn; [|reflexivity].
  destruct (boto3_client _ _) as [?|e]; cbn; [|reflexivity].
  destruct (start_icd10_cm_inference_job _ _) as [?|e]; cbn; reflexivity.
Qed.

(** An invocation either loads a document or stops before it writes or
    submits anything, printing and raising the error that stopped it. *)
Lemma handler_loads_or_stops :
  (exists bucket object_key doc, Loads w event bucket object_key doc) \/
  (exists e t,
      handler w event context = (Raise e, t ++ [PrintExc e]) /\
      storage_writes t = [] /\ service_calls t = []).
Proof.
  destruct event as [| | | | |l|d];
    try (right; eexists _, [_]; run_handler; cbn; repeat split; fail).
  destruct (dict_lookup (lit "textract_result") d) as [tr|] eqn:Hd;
    [|right; eexists _, [_]; run_handler; cbn; repeat split].
  destruct (truthy tr) eqn:Ht;
    [|right; eexists _, [_]; run_handler; cbn; repeat split].
  destruct (py_getitem tr (lit "TextractOutputJsonPath")) as [out|e] eqn:Hout;
    [|right; eexists _, [_]; run_handler; cbn; repeat split].
  destruct (urlparse w out) as [u|e] eqn:Hu;
    [|right; eexists _, [_]; run_handler; cbn; repeat split].
  destruct (s3_get_object w (hostname u) (slice_from_1 (path u)))
    as [resp|e] eqn:Hget;
    [|right; eexists _, [_; _; _; _]; run_handler; cbn; repeat split].
  destruct (Body_read resp) as [raw|e] eqn:Hread;
    [|right; eexists _, [_; _; _; _]; run_handler; cbn; repeat split].
  destruct (json_loads w raw) as [blocks|e] eqn:Hjson;
    [|right; eexists _, [_; _; _; _]; run_handler; cbn; repeat split].
  destruct (trp_Document w blocks) as [doc|e] eqn:Hdoc;
    [|right; eexists _, [_; _; _; _]; run_handler; cbn; repeat split].
  left. exists (hostname u), (slice_from_1 (path u)), doc.
  now apply Loads_intro with d tr out u resp raw blocks.
Qed.

(** Whatever the handler writes, it writes after loading a document: the
    bucket is the one the document came from, the key is the job's, the
    body is the encoded text of the pages, and no other write follows. *)
Lemma handler_writes (b : option AnyStr) (k : pystr) (body : pybytes) :
  In (PutObject b k body) (effects (handler w event context)) ->
  exists object_key doc tail,
    Loads w event b object_key doc /\
    k = result_key w /\
    str_encode (concat (map text (pages doc))) = Ok body /\
    effects (handler w event context) =
      load_effects event b object_key doc ++ PutObject b k body :: tail /\
    storage_writes tail = [].
Proof.
  intros Hin.
  destruct handler_loads_or_stops
    as [(bucket & key & doc & HL) | (e & t & Hrun & Hw & _)].
  2:{ exfalso. rewrite Hrun in Hin. cbn [effects snd] in Hin.
      apply in_app_or in Hin as [Hin | [Hin | []]]; [|discriminate].
      exact (@no_write_in _ _ _ _ Hw Hin). }
  rewrite (handler_loaded HL) in Hin |- *.
  cbv zeta in Hin |- *.
  destruct (str_encode _) as [body'|e] eqn:Henc; [|exfalso; pick_effect Hin].
  destruct (s3_put_object _ _ _ _) as [?|e].
  2:{ pick_effect Hin. injection Hin as <- <- <-.
      exists key, doc, [PrintExc e]. now repeat split. }
  destruct (boto3_client _ _) as [?|e].
  2:{ pick_effect Hin. injection Hin as <- <- <-.
      exists key, doc, [PrintExc e]. now repeat split. }
  destruct (start_icd10_cm_inference_job _ _) as [?|e];
    pick_effect Hin; injection Hin as <- <- <-.
  - exists key, doc, [StartJob (job_params w bucket)]. now repeat split.
  - exists key, doc, [StartJob (job_params w bucket); PrintExc e].
    now repeat split.
Qed.

(** Whatever the handler submits, it submits right after a successful
    write, with the parameters built from the document's bucket, and
    nothing but the report of a failed submission follows. *)
Lemma handler_submits (p : JobParams) :
  In (StartJob p) (effects (handler w event context)) ->
  exists bucket object_key doc body tail,
    Loads w event bucket object_key doc /\
    p = job_params w bucket /\
    str_encode (concat (map text (pages doc))) = Ok body /\
    effects (handler w event context) =
      (load_effects event bucket object_key doc
         ++ [PutObject bucket (result_key w) body])
        ++ StartJob p :: tail /\
    storage_writes tail = [] /\ service_calls tail = [].
Proof.
  intros Hin.
  destruct handler_loads_or_stops
    as [(bucket & key & doc & HL) | (e & t & Hrun & _ & Hs)].
  2:{ exfalso. rewrite Hrun in Hin. cbn [effects snd] in Hin.
      apply in_app_or in Hin as [Hin | [Hin | []]]; [|discriminate].
      exact (@no_service_call_in _ _ Hs Hin). }
  rewrite (handler_loaded HL) in Hin |- *.
  cbv zeta in Hin |- *.
  destruct (str_encode _) as [body|e] eqn:Henc; [|exfalso; pick_effect Hin].
  destruct (s3_put_object _ _ _ _) as [?|e]; [|exfalso; pick_effect Hin].
  destruct (boto3_client _ _) as [?|e]; [|exfalso; pick_effect Hin].
  destruct (start_icd10_cm_inference_job _ _) as [?|e];
    pick_effect Hin; injection Hin as <-.
  - exists bucket, key, doc, body, []. now repeat split.
  - exists bucket, key, doc, body, [PrintExc e]. now repeat split.
Qed.

(** C1: for a structured result with pages P1..Pn (n >= 0), what the handler
    persists is the text of the pages, concatenated in index order with
    nothing between them (stored as its UTF-8 encoding); with no page at
    all, the persisted artifact is empty. *)
Theorem flattened_text_is_concatenation (bucket : option AnyStr)
  (object_key : AnyStr) (doc : Document) :
  Loads w event bucket object_key doc ->
  let run := handler w event context in
  let joined := concat (map text (pages doc)) in
  (forall body, str_encode joined = Ok body ->
     storage_writes (effects run) = [PutObject bucket (result_key w) body]) /\
  (forall b k body, In (PutObject b k body) (effects run) ->
     str_encode joined = Ok body) /\
  (pages doc = [] ->
     storage_writes (effects run) = [PutObject bucket (result_key w) []]).
Proof.
  intros HL run joined.
  assert (Hwrite : forall body, str_encode joined = Ok body ->
    storage_writes (effects run) = [PutObject bucket (result_key w) body]).
  { intros body Henc. subst run joined.
    rewrite (handler_loaded HL). cbv zeta. rewrite Henc.
    destruct (s3_put_object _ _ _ _) as [?|e]; [|reflexivity].
    destruct (boto3_client _ _) as [?|e]; [|reflexivity].
    destruct (start_icd10_cm_inference_job _ _) as [?|e]; reflexivity. }
  split; [exact Hwrite|]. split.
  - intros b k body Hin. subst run joined.
    destruct (@handler_writes _ _ _ Hin) as (key' & doc' & _ & HL' & _ & Henc & _).
    now destruct (Loads_deterministic HL HL') as (_ & _ & ->).
  - intros Hnil. apply Hwrite. subst joined. now rewrite Hnil.
Qed.

(** C4: whenever the handler submits a job, it has written the flattened
    text before: the write precedes the submission in the order of calls,
    and neither a submission comes before it nor a write after it. *)
Theorem write_precedes_submission (t1 t2 : list effect) (p : JobParams) :
  effects (handler w event context) = t1 ++ StartJob p :: t2 ->
  (exists body,
      In (PutObject (S3Bucket (InputDataConfig p)) (result_key w) body) t1) /\
  service_calls t1 = [] /\
  storage_writes t2 = [].
Proof.
  intros Heq.
  assert (Hin : In (StartJob p) (effects (handler w event context)))
    by (rewrite Heq; apply in_or_app; right; now left).
  destruct (@handler_submits _ Hin)
    as (bucket & key & doc & body & tail & _ & -> & _ & Hrun & Hw & Hs).
  rewrite Hrun in Heq.
  assert (Hpre : service_calls
                   (load_effects event bucket key doc
                      ++ [PutObject bucket (result_key w) body]) = [])
    by reflexivity.
  destruct (@split_at_submission _ _ _ _ _ _ Hpre Hs Heq) as (-> & _ & ->).
  split; [|split].
  - exists body. apply in_or_app. right. now left.
  - exact Hpre.
  - exact Hw.
Qed.

(** C5: when the storage write raises, the handler never submits a job; it
    prints the error and raises that same error to its caller. *)
Theorem failed_write_is_propagated (b : option AnyStr) (k : pystr)
  (body : pybytes) (e : exn) :
  In (PutObject b k body) (effects (handler w event context)) ->
  s3_put_object w b k body = Raise e ->
  let run := handler w event context in
  outcome run = Raise e /\
  service_calls (effects run) = [] /\
  exists pre, effects run = pre ++ [PutObject b k body; PrintExc e].
Proof.
  intros Hin Hput run.
  destruct (@handler_writes _ _ _ Hin)
    as (key & doc & tail & HL & -> & Henc & _ & _).
  subst run. rewrite (handler_loaded HL). cbv zeta.
  rewrite Henc, Hput. cbn. repeat split.
  now exists (load_effects event b key doc).
Qed.

(** C7: every submission carries the fresh job name as [JobName], the
    input bucket with the job name as input location, the same bucket with
    [cm-output/{job_id}] as output location, the role read from the
    environment, and the language code ['en']. *)
Theorem submission_parameters (p : JobParams) :
  In (StartJob p) (effects (handler w event context)) ->
  exists bucket object_key doc,
    Loads w event bucket object_key doc /\
    In (GetObject bucket object_key) (effects (handler w event context)) /\
    p = {| InputDataConfig := {| S3Bucket := bucket; S3Key := job_name w |};
           OutputDataConfig :=
             {| S3Bucket := bucket; S3Key := lit "cm-output/" ++ job_name w |};
           JobName := job_name w;
           DataAccessRoleArn := os_getenv w (lit "COMPREHEND_MEDICAL_ROLE");
           LanguageCode := lit "en" |} /\
    job_name w = lit "job-" ++ uuid_str (uuid4 w).
Proof.
  intros Hin.
  destruct (@handler_submits _ Hin)
    as (bucket & key & doc & body & tail & HL & -> & _ & Hrun & _).
  exists bucket, key, doc. repeat split; try assumption.
  rewrite Hrun. cbn. tauto.
Qed.

(** C8: the handler does not look at the role before it reads and writes
    storage.  With the role missing from the environment and a client that
    refuses a job without one, the invocation reads the object, writes the
    text, makes the submission call without a role, and raises the error of
    that call. *)
Theorem missing_role_fails_at_submission (bucket : option AnyStr)
  (object_key : AnyStr) (doc : Document) (body : pybytes) (r : pyval) :
  Loads w event bucket object_key doc ->
  str_encode (concat (map text (pages doc))) = Ok body ->
  s3_put_object w bucket (result_key w) body = Ok r ->
  boto3_client w (lit "comprehendmedical") = Ok tt ->
  os_getenv w (lit "COMPREHEND_MEDICAL_ROLE") = None ->
  (forall p, DataAccessRoleArn p = None ->
             exists e, start_icd10_cm_inference_job w p = Raise e) ->
  let run := handler w event context in
  exists e p,
    DataAccessRoleArn p = None /\
    start_icd10_cm_inference_job w p = Raise e /\
    outcome run = Raise e /\
    effects run =
      load_effects event bucket object_key doc
        ++ [PutObject bucket (result_key w) body; StartJob p; PrintExc e] /\
    In (GetObject bucket object_key) (load_effects event bucket object_key doc).
Proof.
  intros HL Henc Hput Hclient Henv Hrejects run.
  destruct (Hrejects (job_params w bucket) Henv) as [e He].
  exists e, (job_params w bucket).
  subst run. rewrite (handler_loaded HL). cbv zeta.
  rewrite Henc, Hput, Hclient, He. cbn. repeat split; try assumption.
  tauto.
Qed.

End Invocation.

(** ** Events without a usable reference *)

(** The run on an event record that has no ['textract_result']. *)
Lemma handler_without_reference (w : World) (d : list (pystr * pyval))
  (context : pyval) :
  dict_lookup (lit "textract_result") d = None ->
  handler w (PDict d) context
  = (Raise invalid_event,
     [Log DEBUG (MsgEvent (PDict d)); PrintExc invalid_event]).
Proof. intros Hd. now run_handler. Qed.

(** C3, as amended: an event that lacks the ['textract_result'] field
    fails at once, and the handler makes no storage call and no
    inference-service call.  The error is the invalid-input error when the
    event is a record; when the event is any other value (a list, a
    string, a number, [None]) it is the attribute error of [event.get].
    Either way the error is printed and raised. *)
Theorem missing_reference_fails_before_any_call (w : World)
  (event context : pyval) :
  has_key event (lit "textract_result") = false ->
  let run := handler w event context in
  let e := if is_dict event then invalid_event else AttributeError in
  outcome run = Raise e /\
  effects run = [Log DEBUG (MsgEvent event); PrintExc e] /\
  storage_calls (effects run) = [] /\
  service_calls (effects run) = [].
Proof.
  intros Hk run e.
  assert (Hrun : run = (Raise e, [Log DEBUG (MsgEvent event); PrintExc e])).
  { subst run e. destruct event as [| | | | | |d]; try reflexivity.
    cbn [is_dict]. apply handler_without_reference.
    cbn [has_key] in Hk.
    destruct (dict_lookup (lit "textract_result") d); [discriminate|reflexivity]. }
  rewrite Hrun. now repeat split.
Qed.

(** C9: when ['textract_result'] is present but falsy, the handler raises
    the invalid-input error with no storage or service call, just as it
    does for an event without the field: the guard reads the truth value
    of the field, not its presence. *)
Theorem falsy_reference_is_rejected (w : World)
  (d : list (pystr * pyval)) (v context : pyval) :
  dict_lookup (lit "textract_result") d = Some v ->
  truthy v = false ->
  let run := handler w (PDict d) context in
  outcome run = Raise invalid_event /\
  effects run = [Log DEBUG (MsgEvent (PDict d)); PrintExc invalid_event] /\
  storage_calls (effects run) = [] /\
  service_calls (effects run) = [] /\
  (forall d0 context0,
      dict_lookup (lit "textract_result") d0 = None ->
      outcome run = outcome (handler w (PDict d0) context0) /\
      storage_calls (effects run)
        = storage_calls (effects (handler w (PDict d0) context0)) /\
      service_calls (effects run)
        = service_calls (effects (handler w (PDict d0) context0))).
Proof.
  intros Hd Hv run.
  assert (Hrun : run = (Raise invalid_event,
                        [Log DEBUG (MsgEvent (PDict d)); PrintExc invalid_event])).
  { subst run. now run_handler. }
  rewrite Hrun. do 4 (split; [reflexivity|]).
  intros d0 context0 Hd0. rewrite (@handler_without_reference w d0 context0 Hd0).
  now repeat split.
Qed.

(** C10, as amended: when ['textract_result'] is truthy and has no
    ['TextractOutputJsonPath'] key, the handler stops before any storage or
    service call with the error of the failed subscript, not the
    invalid-input error: the missing-key error when the field is an
    object, a type error when it is any other truthy value.  The error is
    printed and raised. *)
Theorem missing_nested_key_fails_the_subscript (w : World)
  (d : list (pystr * pyval)) (v context : pyval) :
  dict_lookup (lit "textract_result") d = Some v ->
  truthy v = true ->
  has_key v (lit "TextractOutputJsonPath") = false ->
  let run := handler w (PDict d) context in
  let e := if is_dict v then KeyError (lit "TextractOutputJsonPath")
           else TypeError in
  outcome run = Raise e /\
  e <> invalid_event /\
  effects run = [Log DEBUG (MsgEvent (PDict d)); PrintExc e] /\
  storage_calls (effects run) = [] /\
  service_calls (effects run) = [].
Proof.
  intros Hd Hv Hk run e.
  assert (Hitem : py_getitem v (lit "TextractOutputJsonPath") = Raise e).
  { subst e. destruct v as [| | | | | |d']; try reflexivity.
    cbn [py_getitem is_dict]. cbn [has_key] in Hk.
    destruct (dict_lookup _ d'); [discriminate|reflexivity]. }
  clear Hk.
  assert (Hrun : run = (Raise e, [Log DEBUG (MsgEvent (PDict d)); PrintExc e])).
  { subst run. unfold_handler. cbn [py_get py_getitem]. rewrite Hd, Hv.
    cbn [fst snd app]. rewrite Hitem. reflexivity. }
  rewrite Hrun. cbn. repeat split.
  subst e. destruct (is_dict v); discriminate.
Qed.

(** ** The example of the specification *)

(** C2: for the event
    [{"textract_result": {"TextractOutputJsonPath": "s3://bucket1/path/to/result.json"}}]
    whose stored object has the two pages ["Hello "] and ["World"], the
    handler writes the UTF-8 bytes of ["Hello World"] under
    [{job_id}/result.txt] in [bucket1] and submits a job whose input is
    [bucket1] / [{job_id}] and whose output is [bucket1] /
    [cm-output/{job_id}]. *)
Theorem end_to_end_example (w : World) (context : pyval)
  (resp : GetObjectOutput) (raw : pybytes) (blocks : pyval) (doc : Document)
  (r : pyval) :
  let bucket1 := Some (Str (lit "bucket1")) in
  urlparse w (PStr (lit "s3://bucket1/path/to/result.json"))
    = Ok {| hostname := bucket1; path := Str (lit "/path/to/result.json") |} ->
  s3_get_object w bucket1 (Str (lit "path/to/result.json")) = Ok resp ->
  Body_read resp = Ok raw ->
  json_loads w raw = Ok blocks ->
  trp_Document w blocks = Ok doc ->
  map text (pages doc) = [lit "Hello "; lit "World"] ->
  s3_put_object w bucket1 (job_name w ++ lit "/result.txt")
    (list_byte_of_string "Hello World") = Ok r ->
  boto3_client w (lit "comprehendmedical") = Ok tt ->
  let run := handler w demo_event context in
  storage_calls (effects run)
    = [GetObject bucket1 (Str (lit "path/to/result.json"));
       PutObject bucket1 (job_name w ++ lit "/result.txt")
         (list_byte_of_string "Hello World")] /\
  exists p,
    service_calls (effects run) = [StartJob p] /\
    InputDataConfig p = {| S3Bucket := bucket1; S3Key := job_name w |} /\
    OutputDataConfig p
      = {| S3Bucket := bucket1; S3Key := lit "cm-output/" ++ job_name w |}.
Proof.
  intros bucket1 Hurl Hget Hread Hjson Hdoc Hpages Hput Hclient run.
  assert (HL : Loads w demo_event bucket1 (Str (lit "path/to/result.json")) doc).
  { eapply Loads_intro with (u := mkParseResult _ _); try eassumption;
      reflexivity. }
  subst run. rewrite (handler_loaded context HL). cbv zeta.
  rewrite Hpages.
  change (str_encode (concat [lit "Hello "; lit "World"]))
    with (Ok (A := pybytes) (list_byte_of_string "Hello World")).
  cbv beta iota. fold (result_key w) in Hput. rewrite Hput, Hclient.
  destruct (start_icd10_cm_inference_job _ _) as [?|e]; cbn;
    (split; [reflexivity | now exists (job_params w bucket1)]).
Qed.

(** ** Two invocations *)

(** C6: two invocations on the same event whose random UUIDs differ use
    different job names and different storage keys, so neither write
    replaces the other; the two runs are not the same, the name being
    drawn at random and not computed from the event. *)
Theorem distinct_tokens_give_distinct_keys (w1 w2 : World)
  (event context1 context2 : pyval)
  (b1 b2 : option AnyStr) (k1 k2 : pystr) (body1 body2 : pybytes) :
  (uuid4 w1 < 2 ^ 128)%N ->
  (uuid4 w2 < 2 ^ 128)%N ->
  uuid4 w1 <> uuid4 w2 ->
  In (PutObject b1 k1 body1) (effects (handler w1 event context1)) ->
  In (PutObject b2 k2 body2) (effects (handler w2 event context2)) ->
  job_name w1 <> job_name w2 /\
  k1 <> k2 /\
  (forall p1 p2,
      In (StartJob p1) (effects (handler w1 event context1)) ->
      In (StartJob p2) (effects (handler w2 event context2)) ->
      JobName p1 <> JobName p2 /\
      S3Key (InputDataConfig p1) <> S3Key (InputDataConfig p2)) /\
  effects (handler w1 event context1) <> effects (handler w2 event context2).
Proof.
  intros H1 H2 Hne Hin1 Hin2.
  assert (Hjob : job_name w1 <> job_name w2)
    by (intros Hj; apply Hne; now apply job_name_inj).
  destruct (@handler_writes _ _ _ _ _ _ Hin1) as (? & ? & ? & _ & Hk1 & _).
  destruct (@handler_writes _ _ _ _ _ _ Hin2) as (? & ? & ? & _ & Hk2 & _).
  split; [exact Hjob|]. split; [|split].
  - subst k1 k2. intros Hk. now apply Hjob, result_key_inj.
  - intros p1 p2 Hs1 Hs2.
    destruct (@handler_submits _ _ _ _ Hs1) as (? & ? & ? & ? & ? & _ & -> & _).
    destruct (@handler_submits _ _ _ _ Hs2) as (? & ? & ? & ? & ? & _ & -> & _).
    split; exact Hjob.
  - intros Heq. rewrite Heq in Hin1.
    destruct (@handler_writes _ _ _ _ _ _ Hin1) as (? & ? & ? & _ & Hk1' & _).
    apply Hjob, result_key_inj. congruence.
Qed.

(** ** The claims on the concrete world *)

Lemma demo_loads (u : UUID) (role : option pystr) (put_answer : result pyval) :
  Loads (demo_world u role put_answer) demo_event
    (Some (Str (lit "bucket1"))) (Str (lit "path/to/result.json")) demo_doc.
Proof.
  eapply Loads_intro with (u := mkParseResult _ _) (raw := demo_raw);
    reflexivity.
Qed.

(** In the concrete world the write is the sixth effect of a run and the
    submission the seventh. *)
Lemma demo_writes (u : UUID) (role : option pystr) (put_answer : result pyval) :
  In (PutObject (Some (Str (lit "bucket1")))
        (result_key (demo_world u role put_answer))
        (list_byte_of_string "Hello World"))
     (effects (handler (demo_world u role put_answer) demo_event PNone)).
Proof.
  rewrite (handler_loaded PNone (demo_loads u role put_answer)).
  destruct put_answer; cbn -[result_key job_params];
    [destruct (demo_start_job _)|]; cbn -[result_key job_params]; tauto.
Qed.

Lemma demo_submits (u : UUID) (role : option pystr) :
  In (StartJob (job_params (demo_world u role (Ok PNone))
                  (Some (Str (lit "bucket1")))))
     (effects (handler (demo_world u role (Ok PNone)) demo_event PNone)).
Proof.
  rewrite (handler_loaded PNone (demo_loads u role (Ok PNone))).
  cbn -[result_key job_params].
  destruct (demo_start_job _); cbn -[result_key job_params]; tauto.
Qed.

Lemma flattened_text_is_concatenation_witness :
  let w := demo_world demo_uuid (Some demo_role) (Ok PNone) in
  let bucket1 := Some (Str (lit "bucket1")) in
  Loads w demo_event bucket1 (Str (lit "path/to/result.json")) demo_doc /\
  let run := handler w demo_event PNone in
  let joined := concat (map text (pages demo_doc)) in
  (forall body, str_encode joined = Ok body ->
     storage_writes (effects run) = [PutObject bucket1 (result_key w) body]) /\
  (forall b k body, In (PutObject b k body) (effects run) ->
     str_encode joined = Ok body) /\
  (pages demo_doc = [] ->
     storage_writes (effects run) = [PutObject bucket1 (result_key w) []]).
Proof.
  split.
  - apply demo_loads.
  - apply (flattened_text_is_concatenation PNone (demo_loads _ _ _)).
Defined.

Lemma missing_reference_fails_before_any_call_witness :
  let w := demo_world demo_uuid (Some demo_role) (Ok PNone) in
  let event := PDict [(lit "job", PStr (lit "42"))] in
  has_key event (lit "textract_result") = false /\
  let run := handler w event PNone in
  outcome run = Raise invalid_event /\
  effects run = [Log DEBUG (MsgEvent event); PrintExc invalid_event] /\
  storage_calls (effects run) = [] /\
  service_calls (effects run) = [].
Proof.
  split.
  - reflexivity.
  - apply (@missing_reference_fails_before_any_call
             (demo_world demo_uuid (Some demo_role) (Ok PNone))
             (PDict [(lit "job", PStr (lit "42"))]) PNone eq_refl).
Defined.

(** C3 as first stated fails: an event that is a list has no
    ['textract_result'] field, and the handler raises the attribute error
    of [event.get], not the invalid-input error. *)
Lemma missing_reference_counterexample :
  let w := demo_world demo_uuid (Some demo_role) (Ok PNone) in
  let event := PList [] in
  has_key event (lit "textract_result") = false /\
  handler w event PNone
  = (Raise AttributeError,
     [Log DEBUG (MsgEvent event); PrintExc AttributeError]) /\
  outcome (handler w event PNone) <> Raise invalid_event.
Proof.
  cbv zeta. repeat split; try reflexivity. discriminate.
Qed.

Lemma falsy_reference_is_rejected_witness :
  let w := demo_world demo_uuid (Some demo_role) (Ok PNone) in
  let d := [(lit "textract_result", PDict [])] in
  dict_lookup (lit "textract_result") d = Some (PDict []) /\
  truthy (PDict []) = false /\
  let run := handler w (PDict d) PNone in
  outcome run = Raise invalid_event /\
  effects run = [Log DEBUG (MsgEvent (PDict d)); PrintExc invalid_event] /\
  storage_calls (effects run) = [] /\
  service_calls (effects run) = [] /\
  (forall d0 context0,
      dict_lookup (lit "textract_result") d0 = None ->
      outcome run = outcome (handler w (PDict d0) context0) /\
      storage_calls (effects run)
        = storage_calls (effects (handler w (PDict d0) context0)) /\
      service_calls (effects run)
        = service_calls (effects (handler w (PDict d0) context0))).
Proof.
  split; [reflexivity|]. split; [reflexivity|].
  apply (@falsy_reference_is_rejected
           (demo_world demo_uuid (Some demo_role) (Ok PNone))
           [(lit "textract_result", PDict [])] (PDict []) PNone
           eq_refl eq_refl).
Defined.

Lemma missing_nested_key_fails_the_subscript_witness :
  let w := demo_world demo_uuid (Some demo_role) (Ok PNone) in
  let v := PDict [(lit "JobId", PStr (lit "42"))] in
  let d := [(lit "textract_result", v)] in
  dict_lookup (lit "textract_result") d = Some v /\
  truthy v = true /\
  has_key v (lit "TextractOutputJsonPath") = false /\
  let run := handler w (PDict d) PNone in
  let e := KeyError (lit "TextractOutputJsonPath") in
  outcome run = Raise e /\
  e <> invalid_event /\
  effects run = [Log DEBUG (MsgEvent (PDict d)); PrintExc e] /\
  storage_calls (effects run) = [] /\
  service_calls (effects run) = [].
Proof.
  split; [reflexivity|]. split; [reflexivity|]. split; [reflexivity|].
  apply (@missing_nested_key_fails_the_subscript
           (demo_world demo_uuid (Some demo_role) (Ok PNone))
           [(lit "textract_result", PDict [(lit "JobId", PStr (lit "42"))])]
           (PDict [(lit "JobId", PStr (lit "42"))]) PNone
           eq_refl eq_refl eq_refl).
Defined.

(** C10 as first stated fails: a ['textract_result'] that is a string is
    truthy and holds no key, and the subscript raises a type error, not
    the missing-key error. *)
Lemma missing_nested_key_counterexample :
  let w := demo_world demo_uuid (Some demo_role) (Ok PNone) in
  let v := PStr (lit "s3://bucket1/path/to/result.json") in
  let d := [(lit "textract_result", v)] in
  dict_lookup (lit "textract_result") d = Some v /\
  truthy v = true /\
  has_key v (lit "TextractOutputJsonPath") = false /\
  handler w (PDict d) PNone
  = (Raise TypeError, [Log DEBUG (MsgEvent (PDict d)); PrintExc TypeError]) /\
  outcome (handler w (PDict d) PNone)
    <> Raise (KeyError (lit "TextractOutputJsonPath")).
Proof.
  cbv zeta. repeat split; try reflexivity. discriminate.
Qed.

Lemma end_to_end_example_witness :
  let w := demo_world demo_uuid (Some demo_role) (Ok PNone) in
  let bucket1 := Some (Str (lit "bucket1")) in
  let resp := {| Body_read := Ok demo_raw |} in
  (urlparse w (PStr (lit "s3://bucket1/path/to/result.json"))
   = Ok {| hostname := bucket1; path := Str (lit "/path/to/result.json") |} /\
   s3_get_object w bucket1 (Str (lit "path/to/result.json")) = Ok resp /\
   Body_read resp = Ok demo_raw /\
   json_loads w demo_raw = Ok demo_blocks /\
   trp_Document w demo_blocks = Ok demo_doc /\
   map text (pages demo_doc) = [lit "Hello "; lit "World"] /\
   s3_put_object w bucket1 (job_name w ++ lit "/result.txt")
     (list_byte_of_string "Hello World") = Ok PNone /\
   boto3_client w (lit "comprehendmedical") = Ok tt) /\
  job_name w = lit "job-123e4567-e89b-42d3-a456-426614174000" /\
  let run := handler w demo_event PNone in
  storage_calls (effects run)
    = [GetObject bucket1 (Str (lit "path/to/result.json"));
       PutObject bucket1 (job_name w ++ lit "/result.txt")
         (list_byte_of_string "Hello World")] /\
  exists p,
    service_calls (effects run) = [StartJob p] /\
    InputDataConfig p = {| S3Bucket := bucket1; S3Key := job_name w |} /\
    OutputDataConfig p
      = {| S3Bucket := bucket1; S3Key := lit "cm-output/" ++ job_name w |}.
Proof.
  split; [repeat split|]. split; [reflexivity|].
  apply (@end_to_end_example
           (demo_world demo_uuid (Some demo_role) (Ok PNone)) PNone
           {| Body_read := Ok demo_raw |} demo_raw demo_blocks demo_doc PNone);
    reflexivity.
Defined.

Lemma write_precedes_submission_witness :
  let w := demo_world demo_uuid (Some demo_role) (Ok PNone) in
  let bucket1 := Some (Str (lit "bucket1")) in
  let t1 := load_effects demo_event bucket1 (Str (lit "path/to/result.json"))
              demo_doc
            ++ [PutObject bucket1 (result_key w)
                  (list_byte_of_string "Hello World")] in
  let p := job_params w bucket1 in
  effects (handler w demo_event PNone) = t1 ++ StartJob p :: [] /\
  (exists body,
      In (PutObject (S3Bucket (InputDataConfig p)) (result_key w) body) t1) /\
  service_calls t1 = [] /\
  storage_writes [] = [].
Proof.
  split.
  - reflexivity.
  - apply (@write_precedes_submission
             (demo_world demo_uuid (Some demo_role) (Ok PNone))
             demo_event PNone).
    reflexivity.
Defined.

Lemma failed_write_is_propagated_witness :
  let w := demo_world demo_uuid (Some demo_role) (Raise access_denied) in
  let bucket1 := Some (Str (lit "bucket1")) in
  let body := list_byte_of_string "Hello World" in
  let run := handler w demo_event PNone in
  In (PutObject bucket1 (result_key w) body) (effects run) /\
  s3_put_object w bucket1 (result_key w) body = Raise access_denied /\
  outcome run = Raise access_denied /\
  service_calls (effects run) = [] /\
  exists pre,
    effects run = pre ++ [PutObject bucket1 (result_key w) body;
                          PrintExc access_denied].
Proof.
  split; [apply demo_writes|]. split; [reflexivity|].
  apply (@failed_write_is_propagated
           (demo_world demo_uuid (Some demo_role) (Raise access_denied))
           demo_event PNone _ _ _ access_denied (demo_writes _ _ _)).
  reflexivity.
Defined.

Lemma distinct_tokens_give_distinct_keys_witness :
  let w1 := demo_world demo_uuid (Some demo_role) (Ok PNone) in
  let w2 := demo_world (demo_uuid + 1)%N (Some demo_role) (Ok PNone) in
  let bucket1 := Some (Str (lit "bucket1")) in
  let body := list_byte_of_string "Hello World" in
  let run1 := handler w1 demo_event PNone in
  let run2 := handler w2 demo_event PNone in
  (uuid4 w1 < 2 ^ 128)%N /\
  (uuid4 w2 < 2 ^ 128)%N /\
  uuid4 w1 <> uuid4 w2 /\
  In (PutObject bucket1 (result_key w1) body) (effects run1) /\
  In (PutObject bucket1 (result_key w2) body) (effects run2) /\
  job_name w1 <> job_name w2 /\
  result_key w1 <> result_key w2 /\
  (forall p1 p2,
      In (StartJob p1) (effects run1) ->
      In (StartJob p2) (effects run2) ->
      JobName p1 <> JobName p2 /\
      S3Key (InputDataConfig p1) <> S3Key (InputDataConfig p2)) /\
  effects run1 <> effects run2.
Proof.
  assert (H1 : (demo_uuid < 2 ^ 128)%N) by reflexivity.
  assert (H2 : (demo_uuid + 1 < 2 ^ 128)%N) by reflexivity.
  assert (Hne : demo_uuid <> (demo_uuid + 1)%N) by discriminate.
  split; [exact H1|]. split; [exact H2|]. split; [exact Hne|].
  split; [apply demo_writes|]. split; [apply demo_writes|].
  apply (@distinct_tokens_give_distinct_keys
           (demo_world demo_uuid (Some demo_role) (Ok PNone))
           (demo_world (demo_uuid + 1)%N (Some demo_role) (Ok PNone))
           demo_event PNone PNone _ _ _ _ _ _
           H1 H2 Hne (demo_writes _ _ _) (demo_writes _ _ _)).
Defined.

Lemma submission_parameters_witness :
  let w := demo_world demo_uuid (Some demo_role) (Ok PNone) in
  let bucket1 := Some (Str (lit "bucket1")) in
  In (StartJob (job_params w bucket1)) (effects (handler w demo_event PNone)) /\
  exists bucket object_key doc,
    Loads w demo_event bucket object_key doc /\
    In (GetObject bucket object_key) (effects (handler w demo_event PNone)) /\
    job_params w bucket1
    = {| InputDataConfig := {| S3Bucket := bucket; S3Key := job_name w |};
         OutputDataConfig :=
           {| S3Bucket := bucket; S3Key := lit "cm-output/" ++ job_name w |};
         JobName := job_name w;
         DataAccessRoleArn := os_getenv w (lit "COMPREHEND_MEDICAL_ROLE");
         LanguageCode := lit "en" |} /\
    job_name w = lit "job-" ++ uuid_str (uuid4 w).
Proof.
  split; [apply demo_submits|].
  apply (@submission_parameters
           (demo_world demo_uuid (Some demo_role) (Ok PNone))
           demo_event PNone _ (demo_submits _ _)).
Defined.

Lemma missing_role_fails_at_submission_witness :
  let w := demo_world demo_uuid None (Ok PNone) in
  let bucket1 := Some (Str (lit "bucket1")) in
  let key := Str (lit "path/to/result.json") in
  let body := list_byte_of_string "Hello World" in
  let run := handler w demo_event PNone in
  (Loads w demo_event bucket1 key demo_doc /\
   str_encode (concat (map text (pages demo_doc))) = Ok body /\
   s3_put_object w bucket1 (result_key w) body = Ok PNone /\
   boto3_client w (lit "comprehendmedical") = Ok tt /\
   os_getenv w (lit "COMPREHEND_MEDICAL_ROLE") = None /\
   (forall p, DataAccessRoleArn p = None ->
              exists e, start_icd10_cm_inference_job w p = Raise e)) /\
  exists e p,
    DataAccessRoleArn p = None /\
    start_icd10_cm_inference_job w p = Raise e /\
    outcome run = Raise e /\
    effects run =
      load_effects demo_event bucket1 key demo_doc
        ++ [PutObject bucket1 (result_key w) body; StartJob p; PrintExc e] /\
    In (GetObject bucket1 key) (load_effects demo_event bucket1 key demo_doc).
Proof.
  assert (Hrejects : forall p, DataAccessRoleArn p = None ->
            exists e, demo_start_job p = Raise e).
  { intros p Hp. unfold demo_start_job. rewrite Hp. eexists. reflexivity. }
  split.
  - split; [apply demo_loads|]. do 4 (split; [reflexivity|]). exact Hrejects.
  - apply (@missing_role_fails_at_submission
             (demo_world demo_uuid None (Ok PNone)) demo_event PNone
             _ _ _ (list_byte_of_string "Hello World") PNone
             (demo_loads _ _ _) eq_refl eq_refl eq_refl eq_refl Hrejects).
Defined.

(** * Further properties of the handler *)

(** ** The stages of a run *)

Lemma Loads_fetch (w : World) (event : pyval) (bucket : option AnyStr)
  (object_key : AnyStr) (doc : Document) :
  Loads w event bucket object_key doc <->
  Resolves w event bucket object_key /\ fetch w bucket object_key = Ok doc.
Proof.
  split.
  - intros [d tr out u resp raw blocks E Hd Ht Hout Hu Hb Hk Hg Hr Hj Hdoc].
    split; [now apply Resolves_intro with d tr out u|].
    unfold fetch. now rewrite Hg, Hr, Hj.
  - intros [[d tr out u E Hd Ht Hout Hu Hb Hk] Hf]. unfold fetch in Hf.
    destruct (s3_get_object w bucket object_key) as [resp|] eqn:Hg;
      [|discriminate].
    destruct (Body_read resp) as [raw|] eqn:Hr; [|discriminate].
    destruct (json_loads w raw) as [blocks|] eqn:Hj; [|discriminate].
    now apply Loads_intro with d tr out u resp raw blocks.
Qed.

(** The run of the handler when the document cannot be fetched. *)
Lemma handler_fetch_fails (w : World) (event context : pyval)
  (bucket : option AnyStr) (object_key : AnyStr) (e : exn) :
  Resolves w event bucket object_key ->
  fetch w bucket object_key = Raise e ->
  handler w event context
  = (Raise e, read_effects event bucket object_key ++ [PrintExc e]).
Proof.
  intros [d tr out u -> Hd Ht Hout Hu -> ->] Hf. unfold fetch in Hf.
  destruct (s3_get_object w (hostname u) (slice_from_1 (path u)))
    as [resp|e1] eqn:Hg.
  2:{ injection Hf as <-. now run_handler. }
  destruct (Body_read resp) as [raw|e2] eqn:Hr.
  2:{ injection Hf as <-. now run_handler. }
  destruct (json_loads w raw) as [blocks|e3] eqn:Hj.
  2:{ injection Hf as <-. now run_handler. }
  now run_handler.
Qed.

(** An invocation either stops before it has a location to read from, or
    it resolves one. *)
Lemma handler_resolves_or_stops (w : World) (event context : pyval) :
  (exists e,
      handler w event context
      = (Raise e, [Log DEBUG (MsgEvent event); PrintExc e]) /\
      forall bucket object_key, ~ Resolves w event bucket object_key) \/
  (exists bucket object_key, Resolves w event bucket object_key).
Proof.
  destruct event as [| | | | |l|d];
    try (left; eexists; split; [now run_handler|];
         intros ? ? [d' tr' out' u' E _ _ _ _ _ _]; discriminate).
  destruct (dict_lookup (lit "textract_result") d) as [tr|] eqn:Hd.
  2:{ left. eexists. split; [now run_handler|].
      intros b k [d' tr' out' u' E Hd' _ _ _ _ _].
      injection E as <-. congruence. }
  destruct (truthy tr) eqn:Ht.
  2:{ left. eexists. split; [now run_handler|].
      intros b k [d' tr' out' u' E Hd' Ht' _ _ _ _].
      injection E as <-. congruence. }
  destruct (py_getitem tr (lit "TextractOutputJsonPath")) as [out|e] eqn:Hout.
  2:{ left. eexists. split; [now run_handler|].
      intros b k [d' tr' out' u' E Hd' Ht' Hout' _ _ _].
      injection E as <-. congruence. }
  destruct (urlparse w out) as [u|e] eqn:Hu.
  2:{ left. eexists. split; [now run_handler|].
      intros b k [d' tr' out' u' E Hd' Ht' Hout' Hu' _ _].
      injection E as <-. congruence. }
  right. exists (hostname u), (slice_from_1 (path u)).
  now apply Resolves_intro with d tr out u.
Qed.

Lemma Resolves_deterministic (w : World) (event : pyval)
  (b b' : option AnyStr) (k k' : AnyStr) :
  Resolves w event b k -> Resolves w event b' k' -> b = b' /\ k = k'.
Proof.
  intros [d tr out u E Hd Ht Hout Hu -> ->]
         [d' tr' out' u' E' Hd' Ht' Hout' Hu' -> ->].
  rewrite E in E'. injection E' as <-.
  rewrite Hd in Hd'. injection Hd' as <-.
  rewrite Hout in Hout'. injection Hout' as <-.
  rewrite Hu in Hu'. injection Hu' as <-. now split.
Qed.

(** ** Encoding a text *)

Lemma utf8_units_surrogate (c : codepoint) :
  (55296 <= c <= 57343)%N -> utf8_units c = None.
Proof.
  intros [Hlo Hhi]. unfold utf8_units.
  destruct (N.ltb_spec c 128); [lia|].
  destruct (N.ltb_spec c 2048); [lia|].
  apply N.leb_le in Hlo, Hhi. now rewrite Hlo, Hhi.
Qed.

(** A text with a code point that has no encoding does not encode. *)
Lemma str_encode_fails (s : pystr) (c : codepoint) :
  In c s -> utf8_units c = None -> str_encode s = Raise UnicodeEncodeError.
Proof.
  intros Hin Hc. induction s as [|x s IH]; [destruct Hin|].
  simpl. unfold utf8_encode_char.
  destruct (utf8_units x) as [us|] eqn:Hx; cbn [option_map]; [|reflexivity].
  destruct Hin as [->|Hin]; [congruence|]. now rewrite (IH Hin).
Qed.

(** An ASCII text encodes to one byte a character. *)
Lemma str_encode_ascii_text (s : pystr) :
  Forall (fun c => (c < 128)%N) s -> str_encode s = Ok (map byte_of_N s).
Proof.
  induction 1 as [|c s Hc _ IH]; simpl; [reflexivity|].
  unfold utf8_encode_char, utf8_units. apply N.ltb_lt in Hc.
  now rewrite Hc, IH.
Qed.

(** ** The shape of a job name *)

Lemma hex_digit_shape (d : N) :
  (d < 16)%N -> is_hex_or_dash (hex_digit d) = true.
Proof.
  intros Hd. unfold is_hex_or_dash, hex_digit.
  destruct (N.ltb_spec d 10).
  - assert (H1 : (48 <=? 48 + d)%N = true) by (apply N.leb_le; lia).
    assert (H2 : (48 + d <=? 57)%N = true) by (apply N.leb_le; lia).
    now rewrite H1, H2.
  - assert (H1 : (97 <=? 87 + d)%N = true) by (apply N.leb_le; lia).
    assert (H2 : (87 + d <=? 102)%N = true) by (apply N.leb_le; lia).
    rewrite H1, H2. cbn. now rewrite orb_true_r.
Qed.

Lemma hex_le_shape (n : nat) (v : N) :
  Forall (fun c => is_hex_or_dash c = true) (hex_le n v).
Proof.
  revert v. induction n as [|n IH]; intros v; simpl; constructor.
  - apply hex_digit_shape, N.mod_lt. discriminate.
  - apply IH.
Qed.

Lemma hex32_shape (v : N) : Forall (fun c => is_hex_or_dash c = true) (hex32 v).
Proof. unfold hex32. apply Forall_rev, hex_le_shape. Qed.

Lemma skipn_shape (P : codepoint -> Prop) (a : nat) (s : pystr) :
  Forall P s -> Forall P (skipn a s).
Proof.
  revert s. induction a as [|a IH]; intros s H; [exact H|].
  destruct H as [|x s Hx Hs]; [constructor|]. simpl. now apply IH.
Qed.

Lemma firstn_shape (P : codepoint -> Prop) (a : nat) (s : pystr) :
  Forall P s -> Forall P (firstn a s).
Proof.
  revert s. induction a as [|a IH]; intros s H; [constructor|].
  destruct H as [|x s Hx Hs]; simpl; constructor; [exact Hx|now apply IH].
Qed.

Lemma slice_shape (P : codepoint -> Prop) (a b : nat) (s : pystr) :
  Forall P s -> Forall P (slice a b s).
Proof. intros H. unfold slice. now apply firstn_shape, skipn_shape. Qed.

Lemma uuid_str_length (u : UUID) : length (uuid_str u) = 36.
Proof.
  unfold uuid_str. cbv zeta. pose proof (hex32_length u) as L.
  rewrite !length_app, !slice_length by lia.
  rewrite length_skipn, L. reflexivity.
Qed.

Lemma uuid_str_shape (u : UUID) :
  Forall (fun c => is_hex_or_dash c = true) (uuid_str u).
Proof.
  unfold uuid_str. cbv zeta. pose proof (hex32_shape u) as H.
  repeat (apply Forall_app; split);
    try (apply slice_shape; exact H);
    try (apply skipn_shape; exact H);
    repeat constructor.
Qed.

(** ** What every run does *)

(** X1: a run that raises has printed the traceback of that very error as
    its last effect, and printed no other; a run that returns has printed
    none. *)
Theorem every_failure_is_printed_then_raised (w : World)
  (event context : pyval) :
  match outcome (handler w event context) with
  | Raise e =>
      exists t, effects (handler w event context) = t ++ [PrintExc e] /\
                printed t = []
  | Ok _ => printed (effects (handler w event context)) = []
  end.
Proof.
  destruct (handler_resolves_or_stops w event context)
    as [(e & Hrun & _) | (b & k & HR)].
  { rewrite Hrun. cbn [outcome fst effects snd]. now eexists [_]. }
  destruct (fetch w b k) as [doc|e] eqn:Hf.
  2:{ rewrite (handler_fetch_fails context HR Hf).
      cbn [outcome fst effects snd]. now exists (read_effects event b k). }
  assert (HL : Loads w event b k doc) by now apply Loads_fetch.
  rewrite (handler_loaded context HL). cbv zeta. unfold load_effects.
  destruct (str_encode _) as [body|e];
    [|cbn [outcome fst effects snd]; now eexists [_; _; _; _; _]].
  destruct (s3_put_object _ _ _ _) as [?|e];
    [|cbn [outcome fst effects snd]; now eexists [_; _; _; _; _; _]].
  destruct (boto3_client _ _) as [?|e];
    [|cbn [outcome fst effects snd]; now eexists [_; _; _; _; _; _]].
  destruct (start_icd10_cm_inference_job _ _) as [?|e];
    [reflexivity|cbn [outcome fst effects snd]].
  now eexists [_; _; _; _; _; _; _].
Qed.

(** X2: whatever the event and the world, the remote calls of a run are an
    initial part of: one read, one write to the same bucket under the
    job's key, one submission for that bucket.  No run reads twice, writes
    twice, submits twice, or changes the order. *)
Theorem remote_calls_are_read_write_submit (w : World)
  (event context : pyval) :
  exists bucket object_key body n,
    remote_calls (effects (handler w event context))
    = firstn n [GetObject bucket object_key;
                PutObject bucket (result_key w) body;
                StartJob (job_params w bucket)].
Proof.
  destruct (handler_resolves_or_stops w event context)
    as [(e & Hrun & _) | (b & k & HR)].
  { exists None, (Str []), [], 0. now rewrite Hrun. }
  destruct (fetch w b k) as [doc|e] eqn:Hf.
  2:{ exists b, k, [], 1. now rewrite (handler_fetch_fails context HR Hf). }
  assert (HL : Loads w event b k doc) by now apply Loads_fetch.
  rewrite (handler_loaded context HL). cbv zeta. unfold load_effects.
  destruct (str_encode _) as [body|e]; [|now exists b, k, [], 1].
  destruct (s3_put_object _ _ _ _) as [?|e]; [|now exists b, k, body, 2].
  destruct (boto3_client _ _) as [?|e]; [|now exists b, k, body, 2].
  destruct (start_icd10_cm_inference_job _ _) as [?|e];
    now exists b, k, body, 3.
Qed.

(** X3: the storage read is made exactly when the event is a record whose
    ['textract_result'] is truthy and holds a ['TextractOutputJsonPath']
    that [urlparse] accepts; it is then made on the parsed host name, as
    it is (even [None]), and on the path without its first character. *)
Theorem read_is_made_iff_reference_resolves (w : World)
  (event context : pyval) (b : option AnyStr) (k : AnyStr) :
  In (GetObject b k) (effects (handler w event context)) <->
  Resolves w event b k.
Proof.
  split.
  - intros Hin.
    destruct (handler_resolves_or_stops w event context)
      as [(e & Hrun & _) | (b' & k' & HR)].
    { rewrite Hrun in Hin. pick_effect Hin. }
    assert (Hbk : GetObject b' k' = GetObject b k);
      [|now injection Hbk as <- <-].
    destruct (fetch w b' k') as [doc|e] eqn:Hf.
    2:{ rewrite (handler_fetch_fails context HR Hf) in Hin.
        pick_effect Hin. exact Hin. }
    assert (HL : Loads w event b' k' doc) by now apply Loads_fetch.
    rewrite (handler_loaded context HL) in Hin. cbv zeta in Hin.
    destruct (str_encode _) as [body|e];
      [destruct (s3_put_object _ _ _ _) as [?|e];
       [destruct (boto3_client _ _) as [?|e];
        [destruct (start_icd10_cm_inference_job _ _) as [?|e]|]|]|];
      pick_effect Hin; exact Hin.
  - intros HR.
    destruct (fetch w b k) as [doc|e] eqn:Hf.
    2:{ rewrite (handler_fetch_fails context HR Hf). cbn. tauto. }
    assert (HL : Loads w event b k doc) by now apply Loads_fetch.
    rewrite (handler_loaded context HL). cbv zeta.
    destruct (str_encode _) as [body|e];
      [destruct (s3_put_object _ _ _ _) as [?|e];
       [destruct (boto3_client _ _) as [?|e];
        [destruct (start_icd10_cm_inference_job _ _) as [?|e]|]|]|];
      cbn -[result_key job_params]; tauto.
Qed.

(** X4: the write is made exactly when the document was loaded and the
    joined text of its pages encodes; it goes to the bucket the document
    was read from, under the job's key, with the encoded text as body. *)
Theorem write_is_made_iff_text_encodes (w : World) (event context : pyval)
  (b : option AnyStr) (k : pystr) (body : pybytes) :
  In (PutObject b k body) (effects (handler w event context)) <->
  exists object_key doc,
    Loads w event b object_key doc /\
    k = result_key w /\
    str_encode (concat (map text (pages doc))) = Ok body.
Proof.
  split.
  - intros Hin.
    destruct (@handler_writes _ _ _ _ _ _ Hin)
      as (key & doc & _ & HL & Hk & Henc & _).
    now exists key, doc.
  - intros (key & doc & HL & -> & Henc).
    rewrite (handler_loaded context HL). cbv zeta. rewrite Henc.
    destruct (s3_put_object _ _ _ _) as [?|e];
      [destruct (boto3_client _ _) as [?|e];
       [destruct (start_icd10_cm_inference_job _ _) as [?|e]|]|];
      cbn -[result_key job_params]; tauto.
Qed.

(** X5: a job is submitted exactly when the document was loaded, its text
    encoded, the write answered without raising and the client was
    built; the parameters are then the ones for the document's bucket. *)
Theorem submission_is_made_iff_write_succeeded (w : World)
  (event context : pyval) (p : JobParams) :
  In (StartJob p) (effects (handler w event context)) <->
  exists bucket object_key doc body r,
    Loads w event bucket object_key doc /\
    str_encode (concat (map text (pages doc))) = Ok body /\
    s3_put_object w bucket (result_key w) body = Ok r /\
    boto3_client w (lit "comprehendmedical") = Ok tt /\
    p = job_params w bucket.
Proof.
  split.
  - intros Hin.
    destruct (@handler_submits _ _ _ _ Hin)
      as (bucket & key & doc & body & _ & HL & Hp & Henc & _).
    rewrite (handler_loaded context HL) in Hin. cbv zeta in Hin.
    rewrite Henc in Hin.
    destruct (s3_put_object _ _ _ _) as [r|e] eqn:Hput;
      [|exfalso; pick_effect Hin].
    destruct (boto3_client _ _) as [[]|e] eqn:Hc;
      [|exfalso; pick_effect Hin].
    now exists bucket, key, doc, body, r.
  - intros (bucket & key & doc & body & r & HL & Henc & Hput & Hc & ->).
    rewrite (handler_loaded context HL). cbv zeta.
    rewrite Henc, Hput, Hc.
    destruct (start_icd10_cm_inference_job _ _) as [?|e];
      cbn -[result_key job_params]; tauto.
Qed.

(** X6: a run that returns normally has made all three calls: it read the
    object, wrote the text and submitted the job, and each call answered
    without raising. *)
Theorem normal_return_means_job_submitted (w : World)
  (event context : pyval) (a : unit) :
  outcome (handler w event context) = Ok a ->
  exists bucket object_key doc body r r',
    Loads w event bucket object_key doc /\
    str_encode (concat (map text (pages doc))) = Ok body /\
    s3_put_object w bucket (result_key w) body = Ok r /\
    start_icd10_cm_inference_job w (job_params w bucket) = Ok r' /\
    effects (handler w event context)
    = load_effects event bucket object_key doc
        ++ [PutObject bucket (result_key w) body;
            StartJob (job_params w bucket)].
Proof.
  intros Hok.
  destruct (handler_resolves_or_stops w event context)
    as [(e & Hrun & _) | (b & k & HR)].
  { rewrite Hrun in Hok. discriminate. }
  destruct (fetch w b k) as [doc|e] eqn:Hf.
  2:{ rewrite (handler_fetch_fails context HR Hf) in Hok. discriminate. }
  assert (HL : Loads w event b k doc) by now apply Loads_fetch.
  rewrite (handler_loaded context HL) in Hok |- *. cbv zeta in Hok |- *.
  destruct (str_encode _) as [body|e] eqn:Henc; [|discriminate].
  destruct (s3_put_object _ _ _ _) as [r|e] eqn:Hput; [|discriminate].
  destruct (boto3_client _ _) as [?|e]; [|discriminate].
  destruct (start_icd10_cm_inference_job _ _) as [r'|e] eqn:Hs;
    [|discriminate].
  now exists b, k, doc, body, r, r'.
Qed.

(** ** Runs that stop on the way *)

(** X7: an event that is not a record (a list, a string, a number,
    [None]) has no [get]: the handler raises [AttributeError], prints it,
    and makes no remote call. *)
Theorem non_record_event_raises_attribute_error (w : World)
  (event context : pyval) :
  is_dict event = false ->
  handler w event context
  = (Raise AttributeError,
     [Log DEBUG (MsgEvent event); PrintExc AttributeError]).
Proof. intros Hd. destruct event; try discriminate; reflexivity. Qed.

(** X8: when [urlparse] raises on the reference, the handler raises that
    error and has touched neither storage nor the inference service. *)
Theorem unparsable_reference_touches_no_storage (w : World)
  (d : list (pystr * pyval)) (textract_result output_json context : pyval)
  (e : exn) :
  dict_lookup (lit "textract_result") d = Some textract_result ->
  truthy textract_result = true ->
  py_getitem textract_result (lit "TextractOutputJsonPath") = Ok output_json ->
  urlparse w output_json = Raise e ->
  handler w (PDict d) context
  = (Raise e, [Log DEBUG (MsgEvent (PDict d)); PrintExc e]).
Proof. intros Hd Ht Hout Hu. now run_handler. Qed.

(** X9: when the object cannot be fetched (the read call, the read of its
    body, the JSON decoding or the Textract parsing raises), the handler
    raises that error after the one read call: it writes nothing and
    submits nothing. *)
Theorem failed_fetch_stops_after_the_read (w : World)
  (event context : pyval) (bucket : option AnyStr) (object_key : AnyStr)
  (e : exn) :
  Resolves w event bucket object_key ->
  fetch w bucket object_key = Raise e ->
  let run := handler w event context in
  outcome run = Raise e /\
  remote_calls (effects run) = [GetObject bucket object_key] /\
  printed (effects run) = [PrintExc e].
Proof.
  intros HR Hf run. subst run.
  now rewrite (handler_fetch_fails context HR Hf).
Qed.

(** X10: one code point without a UTF-8 encoding (a lone surrogate) in any
    page is enough to stop the run after the read: the handler raises
    [UnicodeEncodeError], writes nothing and submits nothing. *)
Theorem unencodable_page_blocks_the_write (w : World)
  (event context : pyval) (bucket : option AnyStr) (object_key : AnyStr)
  (doc : Document) (page : Page) (c : codepoint) :
  Loads w event bucket object_key doc ->
  In page (pages doc) ->
  In c (text page) ->
  utf8_units c = None ->
  handler w event context
  = (Raise UnicodeEncodeError,
     load_effects event bucket object_key doc ++ [PrintExc UnicodeEncodeError]).
Proof.
  intros HL Hpage Hc Hnone.
  rewrite (handler_loaded context HL). cbv zeta.
  rewrite (@str_encode_fails (concat (map text (pages doc))) c);
    [reflexivity| |exact Hnone].
  apply in_concat. exists (text page). split; [|exact Hc].
  now apply in_map.
Qed.

(** X11: the body the handler writes is the UTF-8 encodings of the pages,
    one after the other, in page order. *)
Theorem pages_are_stored_as_their_encodings (w : World)
  (event context : pyval) (bucket : option AnyStr) (object_key : AnyStr)
  (doc : Document) (encodings : list pybytes) :
  Loads w event bucket object_key doc ->
  Forall2 (fun page b => str_encode (text page) = Ok b) (pages doc) encodings ->
  storage_writes (effects (handler w event context))
  = [PutObject bucket (result_key w) (concat encodings)].
Proof.
  intros HL Henc.
  assert (H : str_encode (concat (map text (pages doc)))
              = Ok (concat encodings)).
  { apply str_encode_concat. induction Henc; constructor; assumption. }
  rewrite (handler_loaded context HL). cbv zeta. rewrite H.
  destruct (s3_put_object _ _ _ _) as [?|e]; [|reflexivity].
  destruct (boto3_client _ _) as [?|e]; [|reflexivity].
  destruct (start_icd10_cm_inference_job _ _) as [?|e]; reflexivity.
Qed.

(** X12: when every page is ASCII, the body written has one byte for each
    character of the pages, in order: as many bytes as the pages have
    characters. *)
Theorem ascii_pages_are_stored_byte_for_byte (w : World)
  (event context : pyval) (bucket : option AnyStr) (object_key : AnyStr)
  (doc : Document) :
  Loads w event bucket object_key doc ->
  Forall (fun page => Forall (fun c => (c < 128)%N) (text page)) (pages doc) ->
  let joined := concat (map text (pages doc)) in
  storage_writes (effects (handler w event context))
  = [PutObject bucket (result_key w) (map byte_of_N joined)] /\
  length (map byte_of_N joined) = length joined /\
  map Byte.to_N (map byte_of_N joined) = joined.
Proof.
  intros HL Hascii joined.
  assert (Hj : Forall (fun c => (c < 128)%N) joined).
  { subst joined. apply Forall_concat. now apply Forall_map. }
  split; [|split].
  - rewrite (handler_loaded context HL). cbv zeta.
    fold joined. rewrite (str_encode_ascii_text Hj).
    destruct (s3_put_object _ _ _ _) as [?|e]; [|reflexivity].
    destruct (boto3_client _ _) as [?|e]; [|reflexivity].
    destruct (start_icd10_cm_inference_job _ _) as [?|e]; reflexivity.
  - apply length_map.
  - rewrite map_map. clear HL Hascii.
    induction Hj as [|c s Hc _ IH]; simpl; [reflexivity|].
    rewrite IH, byte_of_N_exact by lia. reflexivity.
Qed.

(** X13: when the submission raises, the handler raises that same error
    after printing it; the write made just before had succeeded and is
    left as it is: nothing follows the submission but the traceback. *)
Theorem failed_submission_is_propagated (w : World)
  (event context : pyval) (p : JobParams) (e : exn) :
  In (StartJob p) (effects (handler w event context)) ->
  start_icd10_cm_inference_job w p = Raise e ->
  let run := handler w event context in
  outcome run = Raise e /\
  exists pre body r,
    effects run
    = pre ++ [PutObject (S3Bucket (InputDataConfig p)) (result_key w) body;
              StartJob p; PrintExc e] /\
    storage_writes pre = [] /\
    s3_put_object w (S3Bucket (InputDataConfig p)) (result_key w) body = Ok r.
Proof.
  intros Hin Hstart run. subst run.
  apply submission_is_made_iff_write_succeeded in Hin
    as (bucket & key & doc & body & r & HL & Henc & Hput & Hc & ->).
  rewrite (handler_loaded context HL). cbv zeta.
  rewrite Henc, Hput, Hc, Hstart. split; [reflexivity|].
  now exists (load_effects event bucket key doc), body, r.
Qed.

(** X14: when the Comprehend Medical client cannot be built, the text has
    already been written: the handler raises the error of the client
    after one read and one write, and submits nothing. *)
Theorem failed_client_leaves_text_written (w : World)
  (event context : pyval) (bucket : option AnyStr) (object_key : AnyStr)
  (doc : Document) (body : pybytes) (r : pyval) (e : exn) :
  Loads w event bucket object_key doc ->
  str_encode (concat (map text (pages doc))) = Ok body ->
  s3_put_object w bucket (result_key w) body = Ok r ->
  boto3_client w (lit "comprehendmedical") = Raise e ->
  let run := handler w event context in
  outcome run = Raise e /\
  remote_calls (effects run)
  = [GetObject bucket object_key; PutObject bucket (result_key w) body] /\
  printed (effects run) = [PrintExc e].
Proof.
  intros HL Henc Hput Hc run. subst run.
  rewrite (handler_loaded context HL). cbv zeta.
  now rewrite Henc, Hput, Hc.
Qed.

(** ** Names and keys *)

(** X15: the job is pointed at what the handler wrote.  The written key is
    the job's input key followed by ["/result.txt"], in the same bucket;
    the output key is not under the input key, and the written key is not
    under the output key. *)
Theorem job_input_covers_the_written_text (w : World)
  (event context : pyval) (b : option AnyStr) (k : pystr) (body : pybytes)
  (p : JobParams) :
  In (PutObject b k body) (effects (handler w event context)) ->
  In (StartJob p) (effects (handler w event context)) ->
  S3Bucket (InputDataConfig p) = b /\
  S3Bucket (OutputDataConfig p) = b /\
  k = S3Key (InputDataConfig p) ++ lit "/result.txt" /\
  (forall rest,
      S3Key (OutputDataConfig p) <> S3Key (InputDataConfig p) ++ rest) /\
  (forall rest, k <> S3Key (OutputDataConfig p) ++ rest).
Proof.
  intros Hput Hsub.
  apply write_is_made_iff_text_encodes in Hput as (key & doc & HL & -> & _).
  apply submission_is_made_iff_write_succeeded in Hsub
    as (bucket & key' & doc' & _ & _ & HL' & _ & _ & _ & ->).
  destruct (Loads_deterministic HL HL') as (-> & _ & _).
  repeat split; intros rest H; discriminate H.
Qed.

(** X16: a job name is ["job-"] followed by 36 characters, each a
    lower-case hexadecimal digit or a dash: 40 characters in all, every
    one of them ASCII. *)
Theorem job_name_shape (w : World) :
  length (job_name w) = 40 /\
  firstn 4 (job_name w) = lit "job-" /\
  Forall (fun c => is_hex_or_dash c = true) (skipn 4 (job_name w)) /\
  Forall (fun c => (c < 128)%N) (job_name w).
Proof.
  unfold job_name. split; [|split; [|split]].
  - now rewrite length_app, uuid_str_length.
  - reflexivity.
  - apply uuid_str_shape.
  - apply Forall_app. split; [repeat constructor|].
    eapply Forall_impl; [|apply uuid_str_shape].
    intros c Hc. unfold is_hex_or_dash in Hc.
    repeat (apply orb_true_iff in Hc as [Hc|Hc]);
      try (apply andb_true_iff in Hc as [_ Hc]; apply N.leb_le in Hc; lia).
    apply N.eqb_eq in Hc. lia.
Qed.

(** X17: a document without pages is not an error: the handler writes an
    empty body and, the write and the client permitting, submits the job
    on it. *)
Theorem empty_document_is_still_submitted (w : World)
  (event context : pyval) (bucket : option AnyStr) (object_key : AnyStr)
  (doc : Document) (r : pyval) :
  Loads w event bucket object_key doc ->
  pages doc = [] ->
  s3_put_object w bucket (result_key w) [] = Ok r ->
  boto3_client w (lit "comprehendmedical") = Ok tt ->
  remote_calls (effects (handler w event context))
  = [GetObject bucket object_key;
     PutObject bucket (result_key w) [];
     StartJob (job_params w bucket)].
Proof.
  intros HL Hnil Hput Hc.
  rewrite (handler_loaded context HL). cbv zeta.
  rewrite Hnil. cbn [map concat str_encode]. rewrite Hput, Hc.
  destruct (start_icd10_cm_inference_job _ _) as [?|e]; reflexivity.
Qed.

(** ** The further properties on concrete worlds *)

Lemma stub_loads (doc : Document) (client : result unit) :
  Loads (stub_world (Ok demo_parse) (Ok doc) client) demo_event
    (Some (Str (lit "bucket1"))) (Str (lit "path/to/result.json")) doc.
Proof.
  eapply Loads_intro with (u := demo_parse) (raw := demo_raw); reflexivity.
Qed.

Lemma demo_resolves_missing :
  Resolves (demo_world demo_uuid (Some demo_role) (Ok PNone)) missing_event
    (Some (Str (lit "bucket1"))) (Str (lit "missing.json")).
Proof. eapply Resolves_intro with (u := mkParseResult _ _); reflexivity. Qed.

Lemma normal_return_means_job_submitted_witness :
  let w := demo_world demo_uuid (Some demo_role) (Ok PNone) in
  outcome (handler w demo_event PNone) = Ok tt /\
  exists bucket object_key doc body r r',
    Loads w demo_event bucket object_key doc /\
    str_encode (concat (map text (pages doc))) = Ok body /\
    s3_put_object w bucket (result_key w) body = Ok r /\
    start_icd10_cm_inference_job w (job_params w bucket) = Ok r' /\
    effects (handler w demo_event PNone)
    = load_effects demo_event bucket object_key doc
        ++ [PutObject bucket (result_key w) body;
            StartJob (job_params w bucket)].
Proof.
  split; [reflexivity|].
  apply (@normal_return_means_job_submitted
           (demo_world demo_uuid (Some demo_role) (Ok PNone))
           demo_event PNone tt eq_refl).
Defined.

Lemma non_record_event_raises_attribute_error_witness :
  let w := demo_world demo_uuid (Some demo_role) (Ok PNone) in
  let event := PList [demo_event] in
  is_dict event = false /\
  handler w event PNone
  = (Raise AttributeError,
     [Log DEBUG (MsgEvent event); PrintExc AttributeError]).
Proof.
  split; [reflexivity|].
  apply non_record_event_raises_attribute_error. reflexivity.
Defined.

Lemma unparsable_reference_touches_no_storage_witness :
  let w := stub_world (Raise invalid_url) (Ok demo_doc) (Ok tt) in
  let out := PStr (lit "s3://[bucket1/path/to/result.json") in
  let tr := PDict [(lit "TextractOutputJsonPath", out)] in
  let d := [(lit "textract_result", tr)] in
  (dict_lookup (lit "textract_result") d = Some tr /\
   truthy tr = true /\
   py_getitem tr (lit "TextractOutputJsonPath") = Ok out /\
   urlparse w out = Raise invalid_url) /\
  handler w (PDict d) PNone
  = (Raise invalid_url, [Log DEBUG (MsgEvent (PDict d)); PrintExc invalid_url]).
Proof.
  split; [repeat split|].
  apply (@unparsable_reference_touches_no_storage
           (stub_world (Raise invalid_url) (Ok demo_doc) (Ok tt))
           [(lit "textract_result",
             PDict [(lit "TextractOutputJsonPath",
                     PStr (lit "s3://[bucket1/path/to/result.json"))])]
           (PDict [(lit "TextractOutputJsonPath",
                    PStr (lit "s3://[bucket1/path/to/result.json"))])
           (PStr (lit "s3://[bucket1/path/to/result.json"))
           PNone invalid_url eq_refl eq_refl eq_refl eq_refl).
Defined.

Lemma failed_fetch_stops_after_the_read_witness :
  let w := demo_world demo_uuid (Some demo_role) (Ok PNone) in
  let bucket1 := Some (Str (lit "bucket1")) in
  let key := Str (lit "missing.json") in
  let run := handler w missing_event PNone in
  (Resolves w missing_event bucket1 key /\
   fetch w bucket1 key = Raise no_such_key) /\
  outcome run = Raise no_such_key /\
  remote_calls (effects run) = [GetObject bucket1 key] /\
  printed (effects run) = [PrintExc no_such_key].
Proof.
  split; [split; [apply demo_resolves_missing|reflexivity]|].
  apply (@failed_fetch_stops_after_the_read
           (demo_world demo_uuid (Some demo_role) (Ok PNone))
           missing_event PNone _ _ no_such_key demo_resolves_missing eq_refl).
Defined.

Lemma unencodable_page_blocks_the_write_witness :
  let w := stub_world (Ok demo_parse) (Ok surrogate_doc) (Ok tt) in
  let bucket1 := Some (Str (lit "bucket1")) in
  let key := Str (lit "path/to/result.json") in
  let page := {| text := [55357%N] |} in
  (Loads w demo_event bucket1 key surrogate_doc /\
   In page (pages surrogate_doc) /\
   In 55357%N (text page) /\
   utf8_units 55357%N = None) /\
  handler w demo_event PNone
  = (Raise UnicodeEncodeError,
     load_effects demo_event bucket1 key surrogate_doc
       ++ [PrintExc UnicodeEncodeError]).
Proof.
  assert (Hpage : In {| text := [55357%N] |} (pages surrogate_doc))
    by (right; left; reflexivity).
  assert (Hc : In 55357%N (text {| text := [55357%N] |}))
    by (left; reflexivity).
  split; [split; [apply stub_loads|split; [exact Hpage|split;
            [exact Hc|reflexivity]]]|].
  apply (@unencodable_page_blocks_the_write
           (stub_world (Ok demo_parse) (Ok surrogate_doc) (Ok tt))
           demo_event PNone _ _ _ _ _ (stub_loads _ _) Hpage Hc eq_refl).
Defined.

Lemma demo_page_encodings :
  Forall2 (fun page b => str_encode (text page) = Ok b) (pages demo_doc)
    [list_byte_of_string "Hello "; list_byte_of_string "World"].
Proof. repeat constructor. Qed.

Lemma pages_are_stored_as_their_encodings_witness :
  let w := demo_world demo_uuid (Some demo_role) (Ok PNone) in
  let bucket1 := Some (Str (lit "bucket1")) in
  let encodings := [list_byte_of_string "Hello "; list_byte_of_string "World"] in
  (Loads w demo_event bucket1 (Str (lit "path/to/result.json")) demo_doc /\
   Forall2 (fun page b => str_encode (text page) = Ok b) (pages demo_doc)
     encodings) /\
  storage_writes (effects (handler w demo_event PNone))
  = [PutObject bucket1 (result_key w) (concat encodings)].
Proof.
  split; [split; [apply demo_loads|apply demo_page_encodings]|].
  apply (@pages_are_stored_as_their_encodings
           (demo_world demo_uuid (Some demo_role) (Ok PNone))
           demo_event PNone _ _ _ _ (demo_loads _ _ _) demo_page_encodings).
Defined.

Lemma demo_pages_ascii :
  Forall (fun page => Forall (fun c => (c < 128)%N) (text page))
    (pages demo_doc).
Proof. repeat constructor. Qed.

Lemma ascii_pages_are_stored_byte_for_byte_witness :
  let w := demo_world demo_uuid (Some demo_role) (Ok PNone) in
  let bucket1 := Some (Str (lit "bucket1")) in
  (Loads w demo_event bucket1 (Str (lit "path/to/result.json")) demo_doc /\
   Forall (fun page => Forall (fun c => (c < 128)%N) (text page))
     (pages demo_doc)) /\
  let joined := concat (map text (pages demo_doc)) in
  storage_writes (effects (handler w demo_event PNone))
  = [PutObject bucket1 (result_key w) (map byte_of_N joined)] /\
  length (map byte_of_N joined) = length joined /\
  map Byte.to_N (map byte_of_N joined) = joined.
Proof.
  split; [split; [apply demo_loads|apply demo_pages_ascii]|].
  apply (@ascii_pages_are_stored_byte_for_byte
           (demo_world demo_uuid (Some demo_role) (Ok PNone))
           demo_event PNone _ _ _ (demo_loads _ _ _) demo_pages_ascii).
Defined.

Lemma failed_submission_is_propagated_witness :
  let w := demo_world demo_uuid None (Ok PNone) in
  let bucket1 := Some (Str (lit "bucket1")) in
  let p := job_params w bucket1 in
  let e := LibraryError "ParamValidationError" (lit "DataAccessRoleArn") in
  let run := handler w demo_event PNone in
  (In (StartJob p) (effects run) /\
   start_icd10_cm_inference_job w p = Raise e) /\
  outcome run = Raise e /\
  exists pre body r,
    effects run
    = pre ++ [PutObject (S3Bucket (InputDataConfig p)) (result_key w) body;
              StartJob p; PrintExc e] /\
    storage_writes pre = [] /\
    s3_put_object w (S3Bucket (InputDataConfig p)) (result_key w) body = Ok r.
Proof.
  split; [split; [apply demo_submits|reflexivity]|].
  apply (@failed_submission_is_propagated
           (demo_world demo_uuid None (Ok PNone)) demo_event PNone
           _ _ (demo_submits _ _) eq_refl).
Defined.

Lemma failed_client_leaves_text_written_witness :
  let w := stub_world (Ok demo_parse) (Ok demo_doc) (Raise no_region) in
  let bucket1 := Some (Str (lit "bucket1")) in
  let key := Str (lit "path/to/result.json") in
  let body := list_byte_of_string "Hello World" in
  let run := handler w demo_event PNone in
  (Loads w demo_event bucket1 key demo_doc /\
   str_encode (concat (map text (pages demo_doc))) = Ok body /\
   s3_put_object w bucket1 (result_key w) body = Ok PNone /\
   boto3_client w (lit "comprehendmedical") = Raise no_region) /\
  outcome run = Raise no_region /\
  remote_calls (effects run)
  = [GetObject bucket1 key; PutObject bucket1 (result_key w) body] /\
  printed (effects run) = [PrintExc no_region].
Proof.
  split; [split; [apply stub_loads|repeat split]|].
  apply (@failed_client_leaves_text_written
           (stub_world (Ok demo_parse) (Ok demo_doc) (Raise no_region))
           demo_event PNone _ _ _ _ PNone no_region
           (stub_loads _ _) eq_refl eq_refl eq_refl).
Defined.

Lemma job_input_covers_the_written_text_witness :
  let w := demo_world demo_uuid (Some demo_role) (Ok PNone) in
  let bucket1 := Some (Str (lit "bucket1")) in
  let k := result_key w in
  let body := list_byte_of_string "Hello World" in
  let p := job_params w bucket1 in
  (In (PutObject bucket1 k body) (effects (handler w demo_event PNone)) /\
   In (StartJob p) (effects (handler w demo_event PNone))) /\
  S3Bucket (InputDataConfig p) = bucket1 /\
  S3Bucket (OutputDataConfig p) = bucket1 /\
  k = S3Key (InputDataConfig p) ++ lit "/result.txt" /\
  (forall rest,
      S3Key (OutputDataConfig p) <> S3Key (InputDataConfig p) ++ rest) /\
  (forall rest, k <> S3Key (OutputDataConfig p) ++ rest).
Proof.
  split; [split; [apply demo_writes|apply demo_submits]|].
  apply (@job_input_covers_the_written_text
           (demo_world demo_uuid (Some demo_role) (Ok PNone))
           demo_event PNone _ _ _ _ (demo_writes _ _ _) (demo_submits _ _)).
Defined.

Lemma empty_document_is_still_submitted_witness :
  let doc := {| pages := [] |} in
  let w := stub_world (Ok demo_parse) (Ok doc) (Ok tt) in
  let bucket1 := Some (Str (lit "bucket1")) in
  let key := Str (lit "path/to/result.json") in
  (Loads w demo_event bucket1 key doc /\
   pages doc = [] /\
   s3_put_object w bucket1 (result_key w) [] = Ok PNone /\
   boto3_client w (lit "comprehendmedical") = Ok tt) /\
  remote_calls (effects (handler w demo_event PNone))
  = [GetObject bucket1 key;
     PutObject bucket1 (result_key w) [];
     StartJob (job_params w bucket1)].
Proof.
  split; [split; [apply stub_loads|repeat split]|].
  apply (@empty_document_is_still_submitted
           (stub_world (Ok demo_parse) (Ok {| pages := [] |}) (Ok tt))
           demo_event PNone _ _ _ PNone (stub_loads _ _)
           eq_refl eq_refl eq_refl).
Defined.
